(** * Expense-Tracker: the ledger and the forecasting pipeline of [app.py]

    A shallow embedding of [read_data], [save_data],
    [prepare_data_for_forecast], [get_forecast] and the routes that write
    the ledger, and of the pandas operations they are built from, followed
    by their properties.

    Conventions of the embedding.
    - Python floats are idealised as exact rationals ([Q]); [NaN] is the
      [None] of [option Q]; the infinities have no counterpart.  Rounding
      is round-half-to-even on the exact value.  Doubles differ from that
      where a sum cancels or overflows and at ties, so the properties that
      speak of a zero sum or of a rounded value are stated for amounts none
      of which is negative and of ordinary size, and say of a rounded value
      that it is a multiple of the unit at most half a unit away, not which
      way a tie went.
    - A timestamp is the number of days since 1970-01-01: the ledger stores
      calendar dates ([save_data] writes them with [%Y-%m-%d]).
    - The CSV file, the console and the calls made to statsmodels live in an
      explicit [World]; handlers run in a state-and-exception monad.
    - statsmodels is not part of the repository: the fitted Holt-Winters
      model is a variable of the development ([holt_winters]). *)

From Stdlib Require Import String ZArith QArith Qround Qabs List Bool Lia Lqa.
From Stdlib Require Import Sorted Permutation.
Import ListNotations.

Set Implicit Arguments.

(* ================================================================== *)
(** ** Numbers *)
(* ================================================================== *)

Module Num.

Local Open Scope Q_scope.

(** [x == 0] on floats. *)
Definition is_zero (x : Q) : bool := Qeq_bool x 0.

(** [Series.sum()] of a column without [NaN]. *)
Definition qsum (l : list Q) : Q := fold_right Qplus 0 l.

(** Nearest integer, ties to the even one. *)
Definition round_half_even (x : Q) : Z :=
  let f := Qfloor x in
  match Qcompare (x - inject_Z f) (1 # 2) with
  | Lt => f
  | Gt => (f + 1)%Z
  | Eq => if Z.even f then f else (f + 1)%Z
  end.

(** [10 ** ndigits]. *)
Definition pow10 (ndigits : nat) : positive :=
  Nat.iter ndigits (Pos.mul 10) 1%positive.

(** [round(x, ndigits)]. *)
Definition py_round (x : Q) (ndigits : nat) : Q :=
  round_half_even (x * inject_Z (Zpos (pow10 ndigits))) # pow10 ndigits.

End Num.

(* ================================================================== *)
(** ** Calendar: pandas timestamps, periods and offsets *)
(* ================================================================== *)

Module Calendar.

Local Open Scope Z_scope.

(** Day number of a civil date (proleptic Gregorian, 1970-01-01 is 0). *)
Definition days_from_civil (y m d : Z) : Z :=
  let y' := if m <=? 2 then y - 1 else y in
  let era := y' / 400 in
  let yoe := y' - era * 400 in
  let mp := if 2 <? m then m - 3 else m + 9 in
  let doy := (153 * mp + 2) / 5 + d - 1 in
  let doe := yoe * 365 + yoe / 4 - yoe / 100 + doy in
  era * 146097 + doe - 719468.

(** [Timestamp.weekday()]: Monday is 0 and Sunday is 6; day 0 was a
    Thursday. *)
Definition weekday (day : Z) : Z := (day + 3) mod 7.

(** [dt.to_period('W')] followed by [to_timestamp()]: ['W'] is ['W-SUN'],
    a week runs from Monday to Sunday and its timestamp is its start. *)
Definition week_start (day : Z) : Z := day - weekday day.

(** The offset [Week(weekday=6)] that the alias [freq='W'] denotes. *)
Definition SUNDAY : Z := 6.

Definition is_on_offset (day : Z) : bool := weekday day =? SUNDAY.

Definition rollforward (day : Z) : Z :=
  if is_on_offset day then day else day + (SUNDAY - weekday day).

(** [pd.date_range(start=start, periods=periods, freq='W')]: a start that
    is not on the offset is first rolled forward to it. *)
Definition date_range_W (start : Z) (periods : nat) : list Z :=
  let first := rollforward start in
  map (fun i => first + 7 * Z.of_nat i) (seq 0 periods).

(** [pd.date_range(start=lo, end=hi, freq='D')]. *)
Definition date_range_D (lo hi : Z) : list Z :=
  map (fun i => lo + Z.of_nat i) (seq 0 (Z.to_nat (hi - lo + 1))).

(** [pd.Timedelta(weeks=n)] in days. *)
Definition Timedelta_weeks (n : Z) : Z := 7 * n.

End Calendar.

(* ================================================================== *)
(** ** pandas: the Series and DataFrame operations of the pipeline *)
(* ================================================================== *)

Module Pandas.

Local Open Scope Q_scope.
Import Num.

(** A [Series] of floats with a [DatetimeIndex]; [None] is [NaN]. *)
Definition Series := list (Z * option Q).

(** *** [groupby(key)[col].sum()]: one entry per distinct key, keys in
    ascending order, each with the sum of its rows. *)
Section Grouping.

Variable K : Type.
Variable cmp : K -> K -> comparison.

Definition same_key (a b : K) : bool :=
  match cmp a b with Eq => true | _ => false end.

Fixpoint insert_key (k : K) (ks : list K) : list K :=
  match ks with
  | [] => [k]
  | h :: t =>
      match cmp k h with
      | Lt => k :: ks
      | Eq => ks
      | Gt => h :: insert_key k t
      end
  end.

Definition unique_sorted (ks : list K) : list K :=
  fold_right insert_key [] ks.

Definition group_sum (rows : list (K * Q)) (k : K) : Q :=
  qsum (map snd (filter (fun r => same_key (fst r) k) rows)).

Definition groupby_sum (rows : list (K * Q)) : list (K * Q) :=
  map (fun k => (k, group_sum rows k)) (unique_sorted (map fst rows)).

(** The order of the index. *)
Definition lt_key (a b : K) : Prop := cmp a b = Lt.

End Grouping.

(** [s.reindex(index, fill_value=fill)]. *)
Definition lookup (s : list (Z * Q)) (d : Z) : option Q :=
  option_map snd (find (fun e => (fst e =? d)%Z) s).

Definition reindex (s : list (Z * Q)) (index : list Z) (fill : Q)
  : list (Z * Q) :=
  map (fun d => (d, match lookup s d with Some v => v | None => fill end))
      index.

(** [s.replace(0, np.nan)] on one value. *)
Definition replace_zero_nan (v : Q) : option Q :=
  if is_zero v then None else Some v.

(** The values that are not [NaN]. *)
Definition dropna (l : list (option Q)) : list Q :=
  flat_map (fun v => match v with Some q => [q] | None => [] end) l.

(** [mean()] skips [NaN]; the mean of no value at all is [NaN]. *)
Definition nanmean (l : list (option Q)) : option Q :=
  match dropna l with
  | [] => None
  | vs => Some (qsum vs / inject_Z (Z.of_nat (length vs)))
  end.

(** The entries at positions [lo] (included) to [hi] (excluded), clipped
    to the list. *)
Definition slice (A : Type) (lo hi : nat) (l : list A) : list A :=
  firstn (hi - lo) (skipn lo l).

(** [rolling(window=7, min_periods=1, center=True).mean()]: position [i]
    sees the positions [i-3 .. i+3] that exist. *)
Definition rolling_mean_7_centered (l : list (option Q)) : list (option Q) :=
  map (fun i => nanmean (slice (i - 3) (i + 4) l)) (seq 0 (length l)).

(** [s.fillna(other)] with a Series on the same index. *)
Fixpoint fillna_series (l other : list (option Q)) : list (option Q) :=
  match l, other with
  | v :: l', o :: other' =>
      match v with Some _ => v | None => o end :: fillna_series l' other'
  | _, _ => l
  end.

(** [s.fillna(value)] with a scalar (filling with [NaN] changes nothing). *)
Definition fillna_value (l : list (option Q)) (value : option Q)
  : list (option Q) :=
  map (fun v => match v with Some _ => v | None => value end) l.

End Pandas.

(* ================================================================== *)
(** ** The ledger file and the world the handlers run in *)
(* ================================================================== *)

(** A CSV cell that a pandas parser either reads as a value or coerces
    ([errors='coerce']). *)
Inductive Cell (A : Type) : Type :=
| Value (a : A)
| Junk (text : string).

Arguments Value {A} a.
Arguments Junk {A} text.

(** A line of [expenses.csv], and a row of the frame [read_data] returns. *)
Record CsvRow : Type := mkCsvRow {
  csv_date : Cell Z;
  csv_category : option string;
  csv_amount : Cell Q;
  csv_description : string
}.

Record Row : Type := mkRow {
  date : Z;
  category : option string;
  amount : Cell Q;
  description : string
}.

Definition DataFrame := list Row.

Inductive CsvFile : Type :=
| NoFile
| Unreadable (err : string)
| Table (columns : list string) (rows : list CsvRow).

(** One construction, fit and forecast of [ExponentialSmoothing]. *)
Record ModelCall : Type := mkModelCall {
  endog : Pandas.Series;
  seasonal_periods : nat;
  steps : nat
}.

Record World : Type := mkWorld {
  FORECAST_AVAILABLE : bool;
  expenses_csv : CsvFile;
  stdout : list string;
  model_calls : list ModelCall
}.

Inductive Exn : Type :=
| ValueError (msg : string)
| Exception (msg : string).

Inductive Outcome (A : Type) : Type :=
| Return (a : A)
| Raise (e : Exn).

Arguments Return {A} a.
Arguments Raise {A} e.

(** State and exceptions. *)
Definition M (A : Type) : Type := World -> Outcome A * World.

Definition ret {A} (a : A) : M A := fun w => (Return a, w).

Definition bind {A B} (m : M A) (k : A -> M B) : M B :=
  fun w =>
    match m w with
    | (Return a, w') => k a w'
    | (Raise e, w') => (Raise e, w')
    end.

Definition try_except {A} (body : M A) (handler : Exn -> M A) : M A :=
  fun w =>
    match body w with
    | (Return a, w') => (Return a, w')
    | (Raise e, w') => handler e w'
    end.

Definition print (line : string) : M unit :=
  fun w => (Return tt,
            mkWorld (FORECAST_AVAILABLE w) (expenses_csv w)
                    (stdout w ++ [line]) (model_calls w)).

Definition record_call (c : ModelCall) : M unit :=
  fun w => (Return tt,
            mkWorld (FORECAST_AVAILABLE w) (expenses_csv w)
                    (stdout w) (model_calls w ++ [c])).

Declare Scope monad_scope.
Delimit Scope monad_scope with monad.
Notation "x <- m ;; k" := (bind m (fun x => k))
  (at level 61, m at next level, right associativity) : monad_scope.
Notation "m ;;; k" := (bind m (fun _ => k))
  (at level 61, right associativity) : monad_scope.

(* ================================================================== *)
(** ** app.py *)
(* ================================================================== *)

Module App.

Import Num Calendar Pandas.
Local Open Scope monad_scope.

Definition COLUMNS : list string :=
  ["date"; "category"; "amount"; "description"]%string.

Definition issubset (a b : list string) : bool :=
  forallb (fun c => existsb (String.eqb c) b) a.

(** [df['date'] = pd.to_datetime(df['date'], errors='coerce')] and
    [df.dropna(subset=['date'])]. *)
Definition to_datetime_dropna (rows : list CsvRow) : DataFrame :=
  flat_map
    (fun r =>
       match csv_date r with
       | Value d => [mkRow d (csv_category r) (csv_amount r)
                           (csv_description r)]
       | Junk _ => []
       end)
    rows.

Definition read_data : M DataFrame :=
  fun w =>
    match expenses_csv w with
    | NoFile => ret [] w
    | Unreadable err =>
        (print ("Error reading data: " ++ err) ;;; ret []) w
    | Table columns rows =>
        if issubset COLUMNS columns
        then ret (to_datetime_dropna rows) w
        else ret [] w
    end.

(** [pd.to_numeric(cell, errors='coerce')] then [fillna(0)]. *)
Definition to_numeric_fillna0 (c : Cell Q) : Q :=
  match c with
  | Value q => q
  | Junk _ => 0%Q
  end.

Inductive Method : Type := Daily | Weekly.

Definition index_min (index : list Z) : Z :=
  match index with [] => 0%Z | h :: t => fold_right Z.min h t end.

Definition index_max (index : list Z) : Z :=
  match index with [] => 0%Z | h :: t => fold_right Z.max h t end.

(** The daily branch, on the frame with numeric amounts. *)
Definition daily_series (numeric : list (Z * Q)) : Series :=
  let daily_expense := groupby_sum Z.compare numeric in
  let date_range :=
    date_range_D (index_min (map fst daily_expense))
                 (index_max (map fst daily_expense)) in
  let daily_expense := reindex daily_expense date_range 0%Q in
  let daily_expense := map (fun e => replace_zero_nan (snd e))
                           daily_expense in
  let rolling_mean := rolling_mean_7_centered daily_expense in
  let daily_expense := fillna_series daily_expense rolling_mean in
  let daily_expense := fillna_value daily_expense (nanmean daily_expense) in
  combine date_range daily_expense.

(** The weekly branch, on the frame with numeric amounts. *)
Definition weekly_series (numeric : list (Z * Q)) : Series :=
  let weekly_expense :=
    groupby_sum Z.compare
                (map (fun r => (week_start (fst r), snd r)) numeric) in
  map (fun e => (fst e, Some (snd e))) weekly_expense.

Definition prepare_data_for_forecast (method : Method) : M Series :=
  df <- read_data ;;
  match df with
  | [] => ret []
  | _ =>
      let numeric :=
        map (fun r => (date r, to_numeric_fillna0 (amount r))) df in
      match method with
      | Weekly => ret (weekly_series numeric)
      | Daily => ret (daily_series numeric)
      end
  end.

(** *** The forecast route *)

Record ForecastResult : Type := mkForecastResult {
  total_forecast : Q;
  forecast_period : string;
  pie : list (string * Q);
  timeline : list (Z * option Q);
  model : string;
  data_points_used : nat
}.

Inductive Response : Type :=
| Unavailable
| InsufficientData (current_weeks required_weeks : nat)
| DataQualityIssue (zero_percentage : Q)
| ModelFittingFailed (details : string)
| ForecastingFailed (message : string)
| Forecast (result : ForecastResult).

Definition status_code (r : Response) : nat :=
  match r with
  | Unavailable => 503
  | InsufficientData _ _ => 400
  | DataQualityIssue _ => 400
  | ModelFittingFailed _ => 400
  | ForecastingFailed _ => 500
  | Forecast _ => 200
  end.

(** What statsmodels answers to one model: a fitted model, seen as the
    function from the horizon [h >= 1] to the predicted value, which is
    [NaN] ([None]) where the optimiser has not produced a number, or an
    exception. *)
Inductive FitOutcome : Type :=
| Fitted (predict : nat -> option Q)
| FitRaises (e : Exn).

(** [(data == 0).sum()]. *)
Definition count_zero (data : Series) : nat :=
  List.length
    (filter (fun e => match snd e with
                      | Some v => is_zero v
                      | None => false
                      end) data).

(** [data.index[-1]]. *)
Definition index_last (data : Series) : Z := last (map fst data) 0%Z.

(** The rows [groupby('category')] keeps: a missing category is dropped. *)
Definition category_amounts (df : DataFrame) : list (string * Q) :=
  flat_map
    (fun r =>
       match category r with
       | Some c => [(c, to_numeric_fillna0 (amount r))]
       | None => []
       end)
    df.

Section Forecast.

(** [ExponentialSmoothing(data, trend="add", seasonal="add",
    seasonal_periods=sp, initialization_method="estimated")
    .fit(optimized=True, use_brute=False)]. *)
Variable holt_winters : Series -> nat -> FitOutcome.

(** Construction, fit and [forecast(steps)], which returns [steps]
    values, for the horizons 1 to [steps].  In the route their [sum()]
    skips [NaN], and [round(float(nan), 2)] is [NaN]. *)
Definition fit_and_forecast (data : Series) (sp steps : nat)
  : M (list (option Q)) :=
  record_call (mkModelCall data sp steps) ;;;
  match holt_winters data sp with
  | Fitted predict => ret (map predict (seq 1 steps))
  | FitRaises e => fun w => (Raise e, w)
  end.

Definition forecast_body : M Response :=
  data <- prepare_data_for_forecast Weekly ;;
  if (List.length data <? 8)%nat then
    ret (InsufficientData (List.length data) 8)
  else
    let zero_pct :=
      (inject_Z (Z.of_nat (count_zero data))
       / inject_Z (Z.of_nat (List.length data)))%Q in
    if negb (Qle_bool zero_pct (1 # 2)) then
      ret (DataQualityIssue (py_round (zero_pct * 100) 1))
    else
      let forecast_steps := 4%nat in
      forecast_values <-
        fit_and_forecast data (Nat.min 4 (List.length data / 2))
                         forecast_steps ;;
      let total_predicted := py_round (qsum (dropna forecast_values)) 2 in
      history_df <- read_data ;;
      let cat_totals :=
        groupby_sum String.compare (category_amounts history_df) in
      let total_history := qsum (map snd cat_totals) in
      let forecast_pie_data :=
        if negb (Qle_bool total_history 0) then
          map (fun ct =>
                 (fst ct,
                  py_round (snd ct / total_history * total_predicted) 2))
              cat_totals
        else [] in
      let forecast_dates :=
        date_range_W (index_last data + Timedelta_weeks 1)
                     forecast_steps in
      let timeline_data :=
        map (fun dv => (fst dv, option_map (fun v => py_round v 2) (snd dv)))
            (combine forecast_dates forecast_values) in
      ret (Forecast
             (mkForecastResult total_predicted "4 weeks"
                forecast_pie_data timeline_data
                "Holt-Winters Exponential Smoothing"
                (List.length data))).

Definition get_forecast : M Response :=
  fun w =>
    if negb (FORECAST_AVAILABLE w) then ret Unavailable w
    else
      try_except forecast_body
        (fun e =>
           match e with
           | ValueError details => ret (ModelFittingFailed details)
           | Exception message =>
               print ("Forecast Error: " ++ message) ;;;
               ret (ForecastingFailed message)
           end)
        w.

End Forecast.

End App.

(* ================================================================== *)
(** ** Vocabulary of the properties *)
(* ================================================================== *)

Module Ledger.

Import Num Calendar Pandas App.

(** The transactions [read_data] finds in a file: the rows of a readable
    table with the four columns whose date parses. *)
Definition transactions (f : CsvFile) : DataFrame :=
  match f with
  | Table columns rows =>
      if issubset COLUMNS columns then to_datetime_dropna rows else []
  | _ => []
  end.

Definition ledger (w : World) : DataFrame := transactions (expenses_csv w).

(** The world once [read_data] has run: the file is as it was, the
    console has one more line when the file could not be read. *)
Definition after_read (w : World) : World :=
  match expenses_csv w with
  | Unreadable err =>
      mkWorld (FORECAST_AVAILABLE w) (expenses_csv w)
              (stdout w ++ [("Error reading data: " ++ err)%string])
              (model_calls w)
  | _ => w
  end.

(** The frame with its amounts made numeric. *)
Definition numeric (df : DataFrame) : list (Z * Q) :=
  map (fun r => (date r, to_numeric_fillna0 (amount r))) df.

(** The ISO week (Monday to Sunday) of a transaction, named by its
    Monday. *)
Definition week_of (r : Row) : Z := week_start (date r).

(** How many distinct weeks have a transaction. *)
Definition distinct_weeks (df : DataFrame) : nat :=
  List.length (nodup Z.eq_dec (map week_of df)).

(** The summed amount of the transactions of one week. *)
Definition week_total (df : DataFrame) (week : Z) : Q :=
  qsum (map (fun r => to_numeric_fillna0 (amount r))
            (filter (fun r => (week_of r =? week)%Z) df)).

(** How many of the weeks that have a transaction sum to exactly zero. *)
Definition zero_weeks (df : DataFrame) : nat :=
  List.length (filter (fun k => Qeq_bool (week_total df k) 0)
                      (nodup Z.eq_dec (map week_of df))).

(** The weekly series of the ledger. *)
Definition weekly (w : World) : Series :=
  weekly_series (numeric (ledger w)).

(** The rows [groupby('week')] sees: week and amount. *)
Definition by_week (df : DataFrame) : list (Z * Q) :=
  map (fun r => (week_start (fst r), snd r)) (numeric df).

(** The share of zero entries of a series. *)
Definition zero_pct (data : Series) : Q :=
  (inject_Z (Z.of_nat (count_zero data))
   / inject_Z (Z.of_nat (List.length data)))%Q.

(** The total of each category, and the grand total of the history. *)
Definition cat_totals (df : DataFrame) : list (string * Q) :=
  groupby_sum String.compare (category_amounts df).

Definition total_history (df : DataFrame) : Q :=
  qsum (map snd (cat_totals df)).


(** The model the route asks statsmodels for, and the world once it has
    been asked. *)
Definition fit_call (w : World) : ModelCall :=
  mkModelCall (weekly w) (Nat.min 4 (List.length (weekly w) / 2)) 4.

Definition with_call (w : World) (c : ModelCall) : World :=
  mkWorld (FORECAST_AVAILABLE w) (expenses_csv w) (stdout w)
          (model_calls w ++ [c]).

Definition with_line (w : World) (line : string) : World :=
  mkWorld (FORECAST_AVAILABLE w) (expenses_csv w) (stdout w ++ [line])
          (model_calls w).

(** The four values [forecast(4)] returns. *)
Definition raw_forecast (predict : nat -> option Q) : list (option Q) :=
  map predict (seq 1 4).

(** *** Rounding, and the amounts the properties are stated for *)

(** [a] is [x] rounded to a multiple of [unit]: a whole number of units, at
    most half a unit away from [x].  Which way a tie goes is left open. *)
Definition rounded_to (unit x a : Q) : Prop :=
  (exists k : Z, a == inject_Z k * unit)%Q /\ (Qabs (a - x) <= unit / 2)%Q.

(** No amount is negative.  A sum of doubles none of which is negative is
    zero exactly when each of them is, as a sum of rationals is. *)
Definition nonneg_amounts (df : DataFrame) : Prop :=
  forall r, In r df -> (0 <= to_numeric_fillna0 (amount r))%Q.

(** No amount is negative and together they stay below 10^9, where the
    doubles of the code tell cents apart and no sum overflows. *)
Definition ordinary_amounts (df : DataFrame) : Prop :=
  nonneg_amounts df
  /\ (qsum (map (fun r => to_numeric_fillna0 (amount r)) df)
      <= inject_Z (10 ^ 9))%Q.



(** *** The daily series, in the words of its contract *)






















End Ledger.

(* ================================================================== *)
(** ** The daily branch on timestamps that carry a time of day *)
(* ================================================================== *)

Module Timed.

Import Num Calendar Pandas App.

(** The daily branch of [prepare_data_for_forecast], for whatever
    [pd.date_range(start, end, freq='D')] returns. *)
Definition daily_series_on (date_range_D : Z -> Z -> list Z)
           (numeric : list (Z * Q)) : Series :=
  let daily_expense := groupby_sum Z.compare numeric in
  let date_range :=
    date_range_D (index_min (map fst daily_expense))
                 (index_max (map fst daily_expense)) in
  let daily_expense := reindex daily_expense date_range 0%Q in
  let daily_expense := map (fun e => replace_zero_nan (snd e))
                           daily_expense in
  let rolling_mean := rolling_mean_7_centered daily_expense in
  let daily_expense := fillna_series daily_expense rolling_mean in
  let daily_expense := fillna_value daily_expense (nanmean daily_expense) in
  combine date_range daily_expense.

(** A timestamp as a number of seconds since 1970-01-01 00:00. *)
Definition DAY : Z := 86400.


(** [pd.date_range(start=lo, end=hi, freq='D')] on timestamps: steps of
    one day from [lo], as long as [hi] is not passed. *)
Definition date_range_D (lo hi : Z) : list Z :=
  map (fun i => (lo + DAY * Z.of_nat i)%Z)
      (seq 0 (Z.to_nat ((hi - lo) / DAY + 1))).

(** The daily branch on a frame whose dates are timestamps. *)
Definition daily_series (numeric : list (Z * Q)) : Series :=
  daily_series_on date_range_D numeric.




End Timed.

(* ================================================================== *)
(** ** Sample ledgers *)
(* ================================================================== *)

Module Samples.

Import Calendar Pandas App Ledger.

Definition txn (y m d : Z) (c : string) (a : Cell Q) : CsvRow :=
  mkCsvRow (Value (days_from_civil y m d)) (Some c) a "".

Definition world_of (available : bool) (rows : list CsvRow) : World :=
  mkWorld available (Table COLUMNS rows) [] [].

(** A stand-in for statsmodels: a fitted line. *)
Definition rising (h : nat) : option Q :=
  Some ((100 # 3) + inject_Z (Z.of_nat h))%Q.

Definition linear_model (data : Series) (sp : nat) : FitOutcome :=
  Fitted rising.

(** Eight consecutive weeks, from Monday 2024-01-01 to the week of
    Monday 2024-02-19. *)
Definition eight_weeks : list CsvRow :=
  [ txn 2024 1 1 "Food" (Value 10%Q);
    txn 2024 1 8 "Food" (Value 20%Q);
    txn 2024 1 15 "Bills" (Value 30%Q);
    txn 2024 1 22 "Food" (Value 40%Q);
    txn 2024 1 29 "Food" (Value 10%Q);
    txn 2024 2 5 "Food" (Value 20%Q);
    txn 2024 2 12 "Bills" (Value 30%Q);
    txn 2024 2 21 "Food" (Value (401 # 10)%Q) ].

(** Three weeks only. *)
Definition three_weeks : list CsvRow := firstn 3 eight_weeks.


(** Another stand-in: a line that falls below zero, and has no number for
    the third week. *)
Definition falling (h : nat) : option Q :=
  match h with
  | 3%nat => None
  | _ => Some (- (100 # 3) - inject_Z (Z.of_nat h))%Q
  end.

Definition falling_model (data : Series) (sp : nat) : FitOutcome :=
  Fitted falling.

(** The eight weeks, with an amount that does not parse in the first week
    and a ninth week that has no other amount than one. *)
Definition with_malformed : list CsvRow :=
  eight_weeks ++ [ txn 2024 1 2 "Food" (Junk "abc");
                   txn 2024 2 27 "Other" (Junk "") ].


Definition dummy_result : ForecastResult :=
  mkForecastResult 0%Q "" [] [] "" 0.

(** The forecast of the eight weeks under the stand-in model. *)
Definition eight_weeks_forecast : ForecastResult :=
  match fst (get_forecast linear_model (world_of true eight_weeks)) with
  | Return (Forecast r) => r
  | _ => dummy_result
  end.

Definition eight_weeks_falling : ForecastResult :=
  match fst (get_forecast falling_model (world_of true eight_weeks)) with
  | Return (Forecast r) => r
  | _ => dummy_result
  end.

(** The same file in a process that has already printed and forecast. *)
Definition eight_weeks_later : World :=
  mkWorld true (Table COLUMNS eight_weeks) ["Forecast Error: x"%string]
          [mkModelCall [] 4 4].

End Samples.

(* ================================================================== *)
(** ** Writing the ledger: [save_data] *)
(* ================================================================== *)

Module Store.

Import Num Calendar Pandas App.
Local Open Scope monad_scope.

(** The frame [read_data] returns, with what the forecast does not look at:
    its columns, and the label of each row, which is its position in the
    file ([dropna] does not renumber the rows it keeps).  Cells of columns
    other than the four are not represented. *)
Record Frame : Type := mkFrame {
  frame_columns : list string;
  frame_rows : list (nat * Row)
}.

(** [pd.DataFrame(columns=COLUMNS)]. *)
Definition empty_frame : Frame := mkFrame COLUMNS [].

(** [pd.to_datetime(errors='coerce')] and [dropna(subset=['date'])], on
    labelled rows. *)
Definition labelled_from (start : nat) (rows : list CsvRow)
  : list (nat * Row) :=
  flat_map
    (fun ir =>
       match csv_date (snd ir) with
       | Value d => [(fst ir, mkRow d (csv_category (snd ir))
                                     (csv_amount (snd ir))
                                     (csv_description (snd ir)))]
       | Junk _ => []
       end)
    (combine (seq start (List.length rows)) rows).

Definition labelled_dropna (rows : list CsvRow) : list (nat * Row) :=
  labelled_from 0 rows.

Definition read_data_frame : M Frame :=
  fun w =>
    match expenses_csv w with
    | NoFile => ret empty_frame w
    | Unreadable err =>
        (print ("Error reading data: " ++ err) ;;; ret empty_frame) w
    | Table columns rows =>
        if issubset COLUMNS columns
        then ret (mkFrame columns (labelled_dropna rows)) w
        else ret empty_frame w
    end.

(** A row of a frame, as the line [to_csv] writes for it. *)
Definition to_csv_row (r : Row) : CsvRow :=
  mkCsvRow (Value (date r)) (category r) (amount r) (description r).

Definition has_date (r : CsvRow) : bool :=
  match csv_date r with
  | Value _ => true
  | Junk _ => false
  end.

Definition date_key (r : CsvRow) : Z :=
  match csv_date r with
  | Value d => d
  | Junk _ => 0%Z
  end.

(** [df.to_csv(FILE_NAME, index=False, date_format="%Y-%m-%d")]: the file
    becomes the table of the frame.  A cell is taken to be read back as it
    was written; that [read_csv] types each column anew, and reads some
    texts as missing, is not modelled, and no property speaks of the
    description a request brings. *)
Definition to_csv (columns : list string) (rows : list CsvRow) : M unit :=
  fun w => (Return tt,
            mkWorld (FORECAST_AVAILABLE w) (Table columns rows)
                    (stdout w) (model_calls w)).

(** What [sort_values(by="date")] is known to do: it returns the rows in
    ascending order of date.  Its default algorithm is not stable, so the
    order of rows of one date is left to it. *)
Definition date_le (a b : CsvRow) : Prop := (date_key a <= date_key b)%Z.

Definition sorts_by_date (sort : list CsvRow -> list CsvRow) : Prop :=
  forall rows, Permutation rows (sort rows)
               /\ StronglySorted date_le (sort rows).

Section Save.

Variable sort_values : list CsvRow -> list CsvRow.

(** [save_data(df)], for a frame given by its columns and its rows, the
    date cell of a row being what [to_datetime(errors='coerce')] makes of
    it. *)
Definition save_data (columns : list string) (rows : list CsvRow) : M unit :=
  let rows := filter has_date rows in
  let rows := sort_values rows in
  to_csv columns rows.

End Save.

(** A sort to run the handlers with: insertion from the right, which keeps
    the order of rows of one date. *)
Fixpoint insert_by_date (r : CsvRow) (rows : list CsvRow) : list CsvRow :=
  match rows with
  | [] => [r]
  | h :: t =>
      if (date_key r <=? date_key h)%Z then r :: rows
      else h :: insert_by_date r t
  end.

Definition insertion_sort (rows : list CsvRow) : list CsvRow :=
  fold_right insert_by_date [] rows.

End Store.

(* ================================================================== *)
(** ** app.py: the routes that change or summarise the ledger *)
(* ================================================================== *)

Module Routes.

Import Num Calendar Pandas App Store.
Local Open Scope monad_scope.

Definition VALID_CATEGORIES : list string :=
  ["Food"; "Transport"; "Entertainment"; "Health"; "Bills"; "Shopping";
   "Other"]%string.

(** *** Request bodies *)

(** A JSON value, as far as the routes look into it: of a list or an object
    only whether it is empty.  A number is a float, [None] being NaN, which
    Python's [json] reads from the literal [NaN]; the infinities are outside
    the rationals the amounts are modelled with. *)
Inductive Json : Type :=
| JNull
| JBool (b : bool)
| JNum (x : option Q)
| JStr (s : string)
| JCompound (empty : bool).

(** Python's truth value; NaN is not zero. *)
Definition truthy (v : Json) : bool :=
  match v with
  | JNull => false
  | JBool b => b
  | JNum (Some q) => negb (is_zero q)
  | JNum None => true
  | JStr s => negb (String.eqb s "")
  | JCompound empty => negb empty
  end.

(** [amount <= 0] on floats: false for NaN. *)
Definition float_le_0 (amount : option Q) : bool :=
  match amount with
  | Some q => Qle_bool q 0
  | None => false
  end.

(** A float as a cell of a frame: NaN is the missing value, which [to_csv]
    writes as an empty cell. *)
Definition float_cell (amount : option Q) : Cell Q :=
  match amount with
  | Some q => Value q
  | None => Junk ""
  end.

(** A JSON object. *)
Definition Dict := list (string * Json).

(** What [request.get_json()] does: it raises (no JSON body, or one that
    does not parse), or returns nothing ([null]) or the value of the body,
    which need not be an object. *)
Inductive Body : Type :=
| Unparsed (e : Exn)
| Null
| Boolean (b : bool)
| Number (x : option Q)
| Text (s : string)
| Array (items : list Json)
| Object (data : Dict).

(** Python's truth value of what [get_json()] returned. *)
Definition truthy_body (body : Body) : bool :=
  match body with
  | Unparsed _ => false
  | Null => false
  | Boolean b => b
  | Number x => truthy (JNum x)
  | Text s => negb (String.eqb s "")
  | Array items => match items with [] => false | _ :: _ => true end
  | Object data => match data with [] => false | _ :: _ => true end
  end.

(** [f in data] where [data] is a string, and where it is a list. *)
Definition is_substring (f s : string) : bool :=
  match String.index 0 f s with
  | Some _ => true
  | None => false
  end.

Definition has_item (f : string) (items : list Json) : bool :=
  existsb (fun v => match v with
                    | JStr t => String.eqb t f
                    | _ => false
                    end) items.

Definition required : list string := ["date"; "category"; "amount"]%string.

(** [key in data] and [data[key]]. *)
Definition dict_get (data : Dict) (key : string) : option Json :=
  option_map snd (find (fun kv => String.eqb (fst kv) key) data).

(** *** The answers *)

Inductive AddResponse : Type :=
| NoDataProvided
| MissingFields (missing : list string)
| AmountMustBePositive
| AmountMustBeNumber
| BadDateFormat
| InvalidCategory
| Created (date_text category : string) (amount : option Q)
          (description : string).

Definition add_status (r : AddResponse) : nat :=
  match r with
  | Created _ _ _ _ => 201
  | _ => 400
  end.

Inductive DeleteResponse : Type :=
| IndexOutOfBounds
| Deleted
| DeleteFailed (label : nat).

Definition delete_status (r : DeleteResponse) : nat :=
  match r with
  | IndexOutOfBounds => 404
  | Deleted => 200
  | DeleteFailed _ => 500
  end.

Inductive ClearResponse : Type :=
| ConfirmationRequired
| Cleared.

Record Stats : Type := mkStats {
  stats_total : Q;
  stats_average : Q;
  stats_count : nat;
  stats_top_category : string
}.

(** What [df.groupby("category")["amount"].sum().idxmax()] does on the raw
    amount column: a label, a [ValueError] or [KeyError], or another
    exception. *)
Inductive TopCategory : Type :=
| Top (label : string)
| TopValueOrKeyError
| TopRaises (e : Exn).

(** One turn of the loop of [generate_mock_data]: what [random] returned. *)
Record Draw : Type := mkDraw {
  days_offset : Z;
  category_index : nat;
  base_amount : Q;
  description_index : nat
}.

(** What [random.randint(0, 180)], [random.choice] and
    [random.uniform(10, 100)] promise. *)
Definition valid_draw (d : Draw) : Prop :=
  (0 <= days_offset d <= 180)%Z
  /\ (category_index d < 6)%nat
  /\ (10 <= base_amount d)%Q /\ (base_amount d <= 100)%Q
  /\ (description_index d < 4)%nat.

Definition desc_map (cat : string) : list string :=
  if String.eqb cat "Food" then
    ["Grocery Store"; "Restaurant"; "Cafe"; "Fast Food"]%string
  else if String.eqb cat "Transport" then
    ["Uber"; "Metro"; "Bus"; "Taxi"]%string
  else if String.eqb cat "Entertainment" then
    ["Netflix"; "Cinema"; "Concert"; "Museum"]%string
  else if String.eqb cat "Health" then
    ["Pharmacy"; "Gym"; "Doctor"; "Supplements"]%string
  else if String.eqb cat "Bills" then
    ["Electricity"; "Water"; "Internet"; "Phone"]%string
  else if String.eqb cat "Shopping" then
    ["Amazon"; "Clothing"; "Electronics"; "Books"]%string
  else [].

(** The record one turn appends, [today] being the date of
    [datetime.now()]. *)
Definition mock_row (today : Z) (d : Draw) : CsvRow :=
  let categories := removelast VALID_CATEGORIES in
  let base_date := (today - 180)%Z in
  let current_date := (base_date + days_offset d)%Z in
  let day_of_week := weekday current_date in
  let cat := nth (category_index d) categories ""%string in
  let trend_factor := (1 + inject_Z (days_offset d) * (5 # 10000))%Q in
  let multiplier :=
    if ((5 <=? day_of_week)%Z
        && existsb (String.eqb cat) ["Food"; "Entertainment"]%string)%bool
    then 2%Q else 1%Q in
  let amount := py_round (base_amount d * trend_factor * multiplier) 2 in
  let desc := nth (description_index d) (desc_map cat) ""%string in
  mkCsvRow (Value current_date) (Some cat) (Value amount) desc.

Section Handlers.

(** pandas and Python, as far as the routes use them:
    [sort_values(by="date")]; [float] on a string ([None] when it raises
    [ValueError], [Some None] for the spellings of NaN); whether
    [datetime.strptime(s, "%Y-%m-%d")] accepts [s];
    [pd.to_datetime(errors='coerce')] on a date string; [str.strip]; and
    [idxmax] on the raw category totals. *)
Variable sort_values : list CsvRow -> list CsvRow.
Variable float_of_string : string -> option (option Q).
Variable strptime_ymd : string -> bool.
Variable to_datetime_string : string -> Cell Z.
Variable str_strip : string -> string.
Variable raw_idxmax : DataFrame -> TopCategory.

(** [float(v)]; [None] for a [ValueError] or [TypeError]. *)
Definition float_of (v : Json) : option (option Q) :=
  match v with
  | JNull => None
  | JBool b => Some (Some (if b then 1 else 0)%Q)
  | JNum x => Some x
  | JStr s => float_of_string s
  | JCompound _ => None
  end.

Definition raise {A} (e : Exn) : M A := fun w => (Raise e, w).

(** The fields that are absent or not truthy. *)
Definition missing_fields (data : Dict) : list string :=
  filter (fun f => match dict_get data f with
                   | None => true
                   | Some v => negb (truthy v)
                   end)
         required.

Definition field (data : Dict) (key : string) : Json :=
  match dict_get data key with
  | Some v => v
  | None => JNull
  end.

Definition add_expense (body : Body) : M AddResponse :=
  match body with
  | Unparsed e => raise e
  | Null => ret NoDataProvided
  | Boolean b =>
      if b then raise (Exception "TypeError: bool is not iterable")
      else ret NoDataProvided
  | Number x =>
      if truthy (JNum x)
      then raise (Exception "TypeError: number is not iterable")
      else ret NoDataProvided
  | Text s =>
      if String.eqb s "" then ret NoDataProvided
      else if existsb (fun f => is_substring f s) required
      then raise (Exception "TypeError: string indices must be integers")
      else ret (MissingFields required)
  | Array [] => ret NoDataProvided
  | Array items =>
      if existsb (fun f => has_item f items) required
      then raise (Exception "TypeError: list indices must be integers")
      else ret (MissingFields required)
  | Object [] => ret NoDataProvided
  | Object data =>
      match missing_fields data with
      | (_ :: _) as missing => ret (MissingFields missing)
      | [] =>
          match float_of (field data "amount") with
          | None => ret AmountMustBeNumber
          | Some amount =>
              if float_le_0 amount then ret AmountMustBePositive
              else
                match field data "date" with
                | JStr date_text =>
                    if negb (strptime_ymd date_text) then ret BadDateFormat
                    else
                      match field data "category" with
                      | JStr cat =>
                          if negb (existsb (String.eqb cat) VALID_CATEGORIES)
                          then ret InvalidCategory
                          else
                            description <-
                              match dict_get data "description" with
                              | None => ret (str_strip "")
                              | Some (JStr s) => ret (str_strip s)
                              | Some _ =>
                                  raise (Exception "AttributeError: strip")
                              end ;;
                            df <- read_data_frame ;;
                            save_data sort_values (frame_columns df)
                              (map (fun ir => to_csv_row (snd ir))
                                   (frame_rows df)
                               ++ [mkCsvRow (to_datetime_string date_text)
                                            (Some cat) (float_cell amount)
                                            description]) ;;;
                            ret (Created date_text cat amount description)
                      | _ => ret InvalidCategory
                      end
                | _ => raise (Exception "TypeError: strptime")
                end
          end
      end
  end.

Definition delete_expense (index : nat) : M DeleteResponse :=
  df <- read_data_frame ;;
  if (List.length (frame_rows df) <=? index)%nat then ret IndexOutOfBounds
  else if existsb (fun ir => (fst ir =? index)%nat) (frame_rows df) then
    save_data sort_values (frame_columns df)
      (map (fun ir => to_csv_row (snd ir))
           (filter (fun ir => negb (fst ir =? index)%nat) (frame_rows df))) ;;;
    ret Deleted
  else ret (DeleteFailed index).

Definition clear_all_expenses (body : Body) : M ClearResponse :=
  match body with
  | Unparsed e => raise e
  | _ =>
      data <-
        match body with
        | Object d => ret d
        | _ => if truthy_body body
               then raise (Exception "AttributeError: get")
               else ret []
        end ;;
      let confirm :=
        match dict_get data "confirm" with
        | Some v => truthy v
        | None => false
        end in
      if negb confirm then ret ConfirmationRequired
      else
        save_data sort_values COLUMNS [] ;;;
        ret Cleared
  end.

Definition generate_mock_data (today : Z) (draw : nat -> Draw) : M unit :=
  let new_data := map (fun i => mock_row today (draw i)) (seq 0 500) in
  save_data sort_values COLUMNS new_data.

Definition get_stats : M Stats :=
  df <- read_data ;;
  match df with
  | [] => ret (mkStats 0 0 0 "N/A")
  | _ =>
      let amount_series := map (fun r => to_numeric_fillna0 (amount r)) df in
      top_category <-
        match raw_idxmax df with
        | Top label => ret label
        | TopValueOrKeyError => ret "N/A"%string
        | TopRaises e => raise e
        end ;;
      ret (mkStats
             (py_round (qsum amount_series) 2)
             (py_round (qsum amount_series
                        / inject_Z (Z.of_nat (List.length amount_series))) 2)
             (List.length df)
             top_category)
  end.

End Handlers.

End Routes.

(* ================================================================== *)
(** ** Vocabulary of the properties of the routes *)
(* ================================================================== *)

Module Book.

Import Num Calendar Pandas App Ledger Store Routes Samples.

(** The frame [read_data] finds in a file. *)
Definition frame_of (f : CsvFile) : Frame :=
  match f with
  | Table columns rows =>
      if issubset COLUMNS columns
      then mkFrame columns (labelled_dropna rows)
      else empty_frame
  | _ => empty_frame
  end.

(** A frame in ascending order of date. *)
Definition by_date (df : DataFrame) : Prop :=
  StronglySorted (fun a b => (date a <= date b)%Z) df.

(** The list without the entry at position [k]. *)
Definition without (A : Type) (k : nat) (l : list A) : list A :=
  firstn k l ++ skipn (S k) l.

(** How many of the first [index] lines of the file have no date. *)
Definition undated_before (rows : list CsvRow) (index : nat) : nat :=
  List.length (filter (fun r => negb (has_date r)) (firstn index rows)).

(** A line as the routes write them: a date, a positive amount, one of the
    categories. *)
Definition kept_row (r : CsvRow) : Prop :=
  (exists d, csv_date r = Value d)
  /\ (exists a, csv_amount r = Value a /\ (0 < a)%Q)
  /\ (exists c, csv_category r = Some c /\ In c VALID_CATEGORIES).

(** A file as the routes leave it: absent, or the four columns and lines as
    above in ascending order of date. *)
Definition well_kept (f : CsvFile) : Prop :=
  f = NoFile
  \/ exists rows, f = Table COLUMNS rows
                  /\ Forall kept_row rows
                  /\ StronglySorted date_le rows.

(** A line of mock data written on the day [today]: a date among the last
    181 days, one of the categories but not the last, an amount between 10
    and 218 (at least 20 for food and entertainment at the weekend), and a
    description of its category. *)
Definition mock_line (today : Z) (r : CsvRow) : Prop :=
  exists day cat a,
    csv_date r = Value day /\ (today - 180 <= day <= today)%Z
    /\ csv_category r = Some cat
    /\ In cat VALID_CATEGORIES /\ cat <> "Other"%string
    /\ csv_amount r = Value a
    /\ (inject_Z 10 <= a)%Q /\ (a <= inject_Z 218)%Q
    /\ In (csv_description r) (desc_map cat)
    /\ ((5 <= weekday day)%Z ->
        cat = "Food"%string \/ cat = "Entertainment"%string ->
        (inject_Z 20 <= a)%Q).

(** What the properties say of a transaction: its date, category and
    amount. *)
Definition entry (r : Row) : Z * option string * Cell Q :=
  (date r, category r, amount r).

(** All the amounts of a frame are positive numbers. *)
Definition positive_amounts (df : DataFrame) : Prop :=
  forall r, In r df -> (0 < to_numeric_fillna0 (amount r))%Q.

(** The sum of the values of a series. *)
Definition series_total (s : Series) : Q := qsum (dropna (map snd s)).

(** Stand-ins for Python and pandas, to run the routes with. *)
Definition no_float (s : string) : option (option Q) := None.
Definition any_date (s : string) : bool := true.
Definition march_first (s : string) : Cell Z :=
  Value (days_from_civil 2024 3 1).
Definition no_strip (s : string) : string := s.
Definition no_top (df : DataFrame) : TopCategory := TopValueOrKeyError.

(** A request to add 12.50 of food on 2024-03-01. *)
Definition lunch_data : Dict :=
  [("date"%string, JStr "2024-03-01");
   ("category"%string, JStr "Food");
   ("amount"%string, JNum (Some (25 # 2)%Q));
   ("description"%string, JStr "lunch")].

Definition lunch : Body := Object lunch_data.

(** The same with an amount of zero. *)
Definition free_lunch_data : Dict :=
  [("date"%string, JStr "2024-03-01");
   ("category"%string, JStr "Food");
   ("amount"%string, JNum (Some 0%Q))].

Definition free_lunch : Body := Object free_lunch_data.

(** The same with the date given as a number. *)
Definition numbered_lunch_data : Dict :=
  [("date"%string, JNum (Some 20240301%Q));
   ("category"%string, JStr "Food");
   ("amount"%string, JNum (Some (25 # 2)%Q))].

Definition numbered_lunch : Body := Object numbered_lunch_data.

(** The same with an amount that is not a number. *)
Definition nan_lunch_data : Dict :=
  [("date"%string, JStr "2024-03-01");
   ("category"%string, JStr "Food");
   ("amount"%string, JNum None)].

Definition nan_lunch : Body := Object nan_lunch_data.

(** [add_expense] and [get_stats] with the stand-ins. *)
Definition add_sample : Body -> M AddResponse :=
  add_expense insertion_sort no_float any_date march_first no_strip.

Definition eight_weeks_stats : Stats :=
  match fst (get_stats no_top (world_of true eight_weeks)) with
  | Return s => s
  | Raise _ => mkStats 0 0 0 ""
  end.

(** A world whose file cannot be read. *)
Definition unreadable_world : World := mkWorld true (Unreadable "bad") [] [].

Definition confirmed : Body := Object [("confirm"%string, JBool true)].

(** Whether a body asks for the clearing: an object whose [confirm] is
    truthy. *)
Definition confirms (body : Body) : bool :=
  match body with
  | Object data =>
      match dict_get data "confirm" with
      | Some v => truthy v
      | None => false
      end
  | _ => false
  end.

Definition is_object (body : Body) : bool :=
  match body with
  | Object _ => true
  | _ => false
  end.

(** A table whose second line has no date. *)
Definition with_undated_line : list CsvRow :=
  [ txn 2024 1 1 "Food" (Value 10%Q);
    mkCsvRow (Junk "soon") (Some "Food"%string) (Value 5%Q) "";
    txn 2024 1 8 "Bills" (Value 20%Q);
    txn 2024 1 15 "Food" (Value 30%Q) ].

(** The day the mock data are generated on. *)
Definition mock_today : Z := days_from_civil 2024 6 30.

(** Draws that walk through the offsets and the categories. *)
Definition walking_draw (i : nat) : Draw :=
  mkDraw (Z.of_nat (i mod 181)) (i mod 6)
         (10 + inject_Z (Z.of_nat (i mod 91)))%Q (i mod 4).

End Book.

(* ================================================================== *)
(** ** Sanity checks of the calendar *)
(* ================================================================== *)

Example civil_epoch : Calendar.days_from_civil 1970 1 1 = 0%Z.
Proof. reflexivity. Qed.

Example monday_2024_01_08 :
  Calendar.weekday (Calendar.days_from_civil 2024 1 8) = 0%Z.
Proof. reflexivity. Qed.

Example date_range_from_a_monday :
  Calendar.date_range_W (Calendar.days_from_civil 2024 1 8) 4
  = map (fun d => Calendar.days_from_civil 2024 (fst d) (snd d))
        [(1, 14); (1, 21); (1, 28); (2, 4)]%Z.
Proof. reflexivity. Qed.

(* ================================================================== *)
(** ** Facts about rounding *)
(* ================================================================== *)

Module NumFacts.

Import Num.
Local Open Scope Q_scope.

Lemma round_half_even_near (x : Q) :
  x - (1 # 2) <= inject_Z (round_half_even x) <= x + (1 # 2).
Proof.
  unfold round_half_even.
  pose proof (Qfloor_le x) as Hlo.
  pose proof (Qlt_floor x) as Hhi.
  rewrite inject_Z_plus in Hhi. change (inject_Z 1) with 1 in Hhi.
  destruct (Qcompare_spec (x - inject_Z (Qfloor x)) (1 # 2)) as [He | Hl | Hg].
  - destruct (Z.even (Qfloor x)).
    + split; lra.
    + rewrite inject_Z_plus. change (inject_Z 1) with 1. split; lra.
  - split; lra.
  - rewrite inject_Z_plus. change (inject_Z 1) with 1. split; lra.
Qed.

Lemma round_half_even_wd (x y : Q) :
  x == y -> round_half_even x = round_half_even y.
Proof.
  intros E. unfold round_half_even.
  assert (Qfloor x = Qfloor y) as -> by (now rewrite E).
  assert (Qcompare (x - inject_Z (Qfloor y)) (1 # 2)
          = Qcompare (y - inject_Z (Qfloor y)) (1 # 2)) as ->
      by (now rewrite E).
  reflexivity.
Qed.

Lemma py_round_wd (x y : Q) (nd : nat) :
  x == y -> py_round x nd = py_round y nd.
Proof.
  intros E. unfold py_round.
  rewrite (round_half_even_wd (x := x * _)
                              (y := y * inject_Z (Zpos (pow10 nd)))).
  - reflexivity.
  - now rewrite E.
Qed.

(** Rounding to two decimals moves a value by at most 0.005. *)
Lemma py_round_2_near (x : Q) :
  x - (1 # 200) <= py_round x 2 <= x + (1 # 200).
Proof.
  unfold py_round.
  change (pow10 2) with 100%positive.
  pose proof (round_half_even_near (x * inject_Z 100)) as H.
  rewrite (Qmake_Qdiv _ 100).
  set (z := inject_Z (round_half_even (x * inject_Z 100))) in *.
  change (inject_Z 100) with 100 in *.
  split.
  - apply Qle_shift_div_l; [reflexivity | lra].
  - apply Qle_shift_div_r; [reflexivity | lra].
Qed.



Lemma qsum_app (l1 l2 : list Q) :
  qsum (l1 ++ l2) == qsum l1 + qsum l2.
Proof.
  induction l1 as [| a l1 IH]; simpl.
  - lra.
  - rewrite IH. lra.
Qed.

End NumFacts.

(* ================================================================== *)
(** ** Facts about grouping *)
(* ================================================================== *)

Module GroupFacts.

Import Num Pandas.

Section Ordered.

Variable K : Type.
Variable cmp : K -> K -> comparison.

Hypothesis cmp_eq : forall a b, cmp a b = Eq <-> a = b.
Hypothesis cmp_antisym : forall a b, cmp a b = CompOpp (cmp b a).
Hypothesis cmp_trans :
  forall a b c, cmp a b = Lt -> cmp b c = Lt -> cmp a c = Lt.

Lemma insert_key_In (k x : K) (ks : list K) :
  In x (insert_key cmp k ks) <-> x = k \/ In x ks.
Proof.
  induction ks as [| h t IH]; simpl.
  - intuition.
  - destruct (cmp k h) eqn:E; simpl.
    + apply cmp_eq in E. subst h. intuition.
    + intuition.
    + rewrite IH. intuition.
Qed.

Lemma insert_key_sorted (k : K) (ks : list K) :
  StronglySorted (lt_key cmp) ks ->
  StronglySorted (lt_key cmp) (insert_key cmp k ks).
Proof.
  induction 1 as [| h t Hs IH Hall]; simpl.
  - constructor; constructor.
  - destruct (cmp k h) eqn:E.
    + now constructor.
    + constructor; [now constructor |].
      constructor; [exact E |].
      rewrite Forall_forall in *. intros y Hy.
      exact (cmp_trans E (Hall y Hy)).
    + constructor; [exact IH |].
      rewrite Forall_forall in *. intros y Hy.
      apply insert_key_In in Hy. destruct Hy as [-> | Hy].
      * unfold lt_key. rewrite cmp_antisym, E. reflexivity.
      * now apply Hall.
Qed.

Lemma unique_sorted_In (x : K) (ks : list K) :
  In x (unique_sorted cmp ks) <-> In x ks.
Proof.
  induction ks as [| k ks IH]; simpl.
  - reflexivity.
  - rewrite insert_key_In, IH. intuition.
Qed.

Lemma unique_sorted_sorted (ks : list K) :
  StronglySorted (lt_key cmp) (unique_sorted cmp ks).
Proof.
  induction ks as [| k ks IH]; simpl.
  - constructor.
  - now apply insert_key_sorted.
Qed.

Lemma lt_key_irrefl (a : K) : ~ lt_key cmp a a.
Proof.
  unfold lt_key. intros H.
  assert (cmp a a = Eq) as E by now apply cmp_eq.
  congruence.
Qed.

Lemma sorted_NoDup (ks : list K) : StronglySorted (lt_key cmp) ks -> NoDup ks.
Proof.
  induction 1 as [| h t Hs IH Hall]; constructor.
  - intros Hin. rewrite Forall_forall in Hall.
    exact (lt_key_irrefl (Hall h Hin)).
  - exact IH.
Qed.

(** The index of a grouped sum holds every key once. *)
Lemma unique_sorted_NoDup (ks : list K) : NoDup (unique_sorted cmp ks).
Proof. apply sorted_NoDup, unique_sorted_sorted. Qed.

Lemma groupby_sum_index (rows : list (K * Q)) :
  map fst (groupby_sum cmp rows) = unique_sorted cmp (map fst rows).
Proof.
  unfold groupby_sum. rewrite map_map. simpl. apply map_id.
Qed.

Lemma groupby_sum_length (rows : list (K * Q)) :
  List.length (groupby_sum cmp rows)
  = List.length (unique_sorted cmp (map fst rows)).
Proof. unfold groupby_sum. apply length_map. Qed.

(** With decidable keys, the index has as many entries as there are
    distinct keys. *)
Lemma unique_sorted_length (dec : forall a b : K, {a = b} + {a <> b})
      (ks : list K) :
  List.length (unique_sorted cmp ks) = List.length (nodup dec ks).
Proof.
  apply Permutation_length, NoDup_Permutation.
  - apply unique_sorted_NoDup.
  - apply NoDup_nodup.
  - intros x. rewrite unique_sorted_In, nodup_In. reflexivity.
Qed.


(** The grouped sums add up to the sum of all the rows. *)
Lemma indicator_sum (k0 : K) (v0 : Q) (ks : list K) :
  NoDup ks -> In k0 ks ->
  (qsum (map (fun k => if same_key cmp k0 k then v0 else 0) ks) == v0)%Q.
Proof.
  assert (forall l, ~ In k0 l ->
            (qsum (map (fun k => if same_key cmp k0 k then v0 else 0) l)
             == 0)%Q) as Hout.
  { induction l as [| k l IH]; intros Hn; simpl; [reflexivity |].
    unfold same_key at 1. destruct (cmp k0 k) eqn:E.
    - apply cmp_eq in E. subst. exfalso. apply Hn. now left.
    - rewrite IH; [ring | intros H; apply Hn; now right].
    - rewrite IH; [ring | intros H; apply Hn; now right]. }
  induction 1 as [| k l Hk Hnd IH]; intros Hin; [destruct Hin |].
  simpl. unfold same_key at 1. destruct (cmp k0 k) eqn:E.
  - apply cmp_eq in E. subst k. rewrite (Hout l Hk). ring.
  - destruct Hin as [-> | Hin].
    + assert (cmp k0 k0 = Eq) by now apply cmp_eq. congruence.
    + rewrite (IH Hin). ring.
  - destruct Hin as [-> | Hin].
    + assert (cmp k0 k0 = Eq) by now apply cmp_eq. congruence.
    + rewrite (IH Hin). ring.
Qed.

Lemma group_sums_total (rows : list (K * Q)) (ks : list K) :
  NoDup ks -> (forall r, In r rows -> In (fst r) ks) ->
  (qsum (map (group_sum cmp rows) ks) == qsum (map snd rows))%Q.
Proof.
  intros Hnd. induction rows as [| [k0 v0] rows IH]; intros Hcover.
  - unfold group_sum. simpl. clear Hnd Hcover.
    induction ks as [| k ks IHk]; simpl; [reflexivity |].
    rewrite IHk. ring.
  - assert (forall k, (group_sum cmp ((k0, v0) :: rows) k
                       == (if same_key cmp k0 k then v0 else 0)
                          + group_sum cmp rows k)%Q) as Hstep.
    { intros k. unfold group_sum. simpl.
      destruct (same_key cmp k0 k); simpl; ring. }
    assert (forall l,
              (qsum (map (group_sum cmp ((k0, v0) :: rows)) l)
               == qsum (map (fun k => if same_key cmp k0 k then v0 else 0) l)
                  + qsum (map (group_sum cmp rows) l))%Q) as Hsplit.
    { induction l as [| k l IHl]; simpl; [ring |].
      rewrite IHl, Hstep. ring. }
    rewrite Hsplit, indicator_sum.
    + rewrite IH; [reflexivity |].
      intros r Hr. apply Hcover. now right.
    + exact Hnd.
    + apply (Hcover (k0, v0)). now left.
Qed.

Lemma groupby_sum_total (rows : list (K * Q)) :
  (qsum (map snd (groupby_sum cmp rows)) == qsum (map snd rows))%Q.
Proof.
  unfold groupby_sum. rewrite map_map. simpl.
  apply group_sums_total.
  - apply unique_sorted_NoDup.
  - intros r Hr. apply unique_sorted_In. now apply in_map.
Qed.

End Ordered.

(** Timestamps, ordered by [Z.compare]. *)
Lemma Z_cmp_eq (a b : Z) : (a ?= b)%Z = Eq <-> a = b.
Proof. apply Z.compare_eq_iff. Qed.

Lemma Z_cmp_antisym (a b : Z) : (a ?= b)%Z = CompOpp (b ?= a)%Z.
Proof. apply Z.compare_antisym. Qed.

Lemma Z_cmp_trans (a b c : Z) :
  (a ?= b)%Z = Lt -> (b ?= c)%Z = Lt -> (a ?= c)%Z = Lt.
Proof. rewrite !Z.compare_lt_iff. lia. Qed.

(** Categories, ordered by [String.compare]. *)
Lemma string_cmp_refl (s : string) : String.compare s s = Eq.
Proof.
  induction s as [| a s IH]; simpl; [reflexivity |].
  unfold Ascii.compare. rewrite N.compare_refl. exact IH.
Qed.

Lemma string_cmp_eq (a b : string) : String.compare a b = Eq <-> a = b.
Proof.
  split.
  - apply String.compare_eq_iff.
  - intros ->. apply string_cmp_refl.
Qed.

Lemma string_cmp_trans (a b c : string) :
  String.compare a b = Lt -> String.compare b c = Lt ->
  String.compare a c = Lt.
Proof.
  revert b c. induction a as [| x a IH]; intros [| y b] [| z c]; simpl;
    try discriminate; try reflexivity.
  destruct (Ascii.compare x y) eqn:Exy; try discriminate;
    destruct (Ascii.compare y z) eqn:Eyz; try discriminate; intros H1 H2.
  - apply Ascii.compare_eq_iff in Exy, Eyz. subst.
    rewrite (proj2 (N.compare_eq_iff _ _) eq_refl
             : Ascii.compare z z = Eq).
    now apply IH with b.
  - apply Ascii.compare_eq_iff in Exy. subst. now rewrite Eyz.
  - apply Ascii.compare_eq_iff in Eyz. subst. now rewrite Exy.
  - unfold Ascii.compare in *.
    rewrite N.compare_lt_iff in *.
    assert (N.compare (Ascii.N_of_ascii x) (Ascii.N_of_ascii z) = Lt) as ->
        by (apply N.compare_lt_iff; lia).
    reflexivity.
Qed.

End GroupFacts.

(* ================================================================== *)
(** ** Running the handlers *)
(* ================================================================== *)

Module Run.

Import Num Calendar Pandas App Ledger GroupFacts.

Lemma read_data_run (w : World) :
  read_data w = (Return (ledger w), after_read w).
Proof.
  unfold read_data, ledger, transactions, after_read.
  destruct (expenses_csv w) as [| err | columns rows] eqn:E;
    try reflexivity.
  - unfold bind, print, ret. simpl. now rewrite E.
  - now destruct (issubset COLUMNS columns).
Qed.

Lemma after_read_csv (w : World) :
  expenses_csv (after_read w) = expenses_csv w.
Proof.
  unfold after_read. destruct (expenses_csv w) eqn:E; simpl; congruence.
Qed.

Lemma after_read_flag (w : World) :
  FORECAST_AVAILABLE (after_read w) = FORECAST_AVAILABLE w.
Proof. unfold after_read. now destruct (expenses_csv w). Qed.

Lemma after_read_calls (w : World) :
  model_calls (after_read w) = model_calls w.
Proof. unfold after_read. now destruct (expenses_csv w). Qed.

Lemma after_read_ledger (w : World) : ledger (after_read w) = ledger w.
Proof. unfold ledger. now rewrite after_read_csv. Qed.

Lemma weekly_series_nil : weekly_series [] = [].
Proof. reflexivity. Qed.

Lemma prepare_weekly_run (w : World) :
  prepare_data_for_forecast Weekly w = (Return (weekly w), after_read w).
Proof.
  unfold prepare_data_for_forecast, bind. rewrite read_data_run.
  unfold weekly. destruct (ledger w); reflexivity.
Qed.

Lemma prepare_daily_run (w : World) :
  prepare_data_for_forecast Daily w
  = (Return (match ledger w with
             | [] => []
             | _ => daily_series (numeric (ledger w))
             end), after_read w).
Proof.
  unfold prepare_data_for_forecast, bind. rewrite read_data_run.
  destruct (ledger w); reflexivity.
Qed.

(** *** The weekly series against the ledger *)

Lemma same_key_Z (a b : Z) : same_key Z.compare a b = (a =? b)%Z.
Proof.
  unfold same_key. destruct (Z.compare_spec a b) as [-> | H | H].
  - now rewrite Z.eqb_refl.
  - symmetry. apply Z.eqb_neq. lia.
  - symmetry. apply Z.eqb_neq. lia.
Qed.

Lemma by_week_index (df : DataFrame) :
  map fst (by_week df) = map week_of df.
Proof.
  unfold by_week, numeric. rewrite !map_map. reflexivity.
Qed.

Lemma weekly_series_index (df : DataFrame) :
  map fst (weekly_series (numeric df))
  = unique_sorted Z.compare (map week_of df).
Proof.
  unfold weekly_series. fold (by_week df).
  rewrite map_map. simpl.
  rewrite <- by_week_index.
  apply (groupby_sum_index Z.compare).
Qed.

Lemma group_sum_week (df : DataFrame) (k : Z) :
  group_sum Z.compare (by_week df) k = week_total df k.
Proof.
  unfold group_sum, week_total, by_week, numeric.
  rewrite map_map. rewrite filter_map_swap, map_map. simpl.
  f_equal. f_equal. apply filter_ext. intros r.
  apply same_key_Z.
Qed.

(** The series has one entry per week that has a transaction. *)
Lemma weekly_series_length (df : DataFrame) :
  List.length (weekly_series (numeric df)) = distinct_weeks df.
Proof.
  rewrite <- (length_map fst), weekly_series_index.
  apply (@unique_sorted_length _ Z.compare Z_cmp_eq Z_cmp_antisym Z_cmp_trans).
Qed.

Lemma weekly_series_entry (df : DataFrame) (k : Z) (v : option Q) :
  In (k, v) (weekly_series (numeric df)) ->
  In k (map week_of df) /\ v = Some (week_total df k).
Proof.
  unfold weekly_series. fold (by_week df). unfold groupby_sum.
  rewrite map_map. simpl. rewrite in_map_iff.
  intros [k' [E Hin]]. inversion E; subst k' v.
  rewrite by_week_index in Hin.
  rewrite (@unique_sorted_In _ Z.compare Z_cmp_eq) in Hin.
  split; [exact Hin | now rewrite group_sum_week].
Qed.

Lemma Permutation_filter_length (A : Type) (p : A -> bool) (l1 l2 : list A) :
  Permutation l1 l2 ->
  List.length (filter p l1) = List.length (filter p l2).
Proof.
  induction 1 as [| x l1 l2 HP IH | x y l | l1 l2 l3 H12 IH12 H23 IH23];
    simpl.
  - reflexivity.
  - destruct (p x); simpl; now rewrite IH.
  - destruct (p x), (p y); reflexivity.
  - now rewrite IH12.
Qed.

(** Its zero entries are the weeks that have transactions summing to
    zero. *)
Lemma count_zero_weekly (df : DataFrame) :
  count_zero (weekly_series (numeric df)) = zero_weeks df.
Proof.
  unfold count_zero, zero_weeks, weekly_series. fold (by_week df).
  unfold groupby_sum. rewrite map_map. simpl.
  rewrite filter_map_swap, length_map. simpl.
  rewrite by_week_index.
  rewrite (filter_ext _ (fun k => Qeq_bool (week_total df k) 0))
    by (intros k; now rewrite group_sum_week).
  apply Permutation_filter_length, NoDup_Permutation.
  - apply (@unique_sorted_NoDup _ Z.compare Z_cmp_eq Z_cmp_antisym Z_cmp_trans).
  - apply NoDup_nodup.
  - intros x.
    rewrite (@unique_sorted_In _ Z.compare Z_cmp_eq), nodup_In. reflexivity.
Qed.

(** *** The route, case by case *)

Section Route.

Variable holt_winters : Series -> nat -> FitOutcome.

Lemma get_forecast_unavailable (w : World) :
  FORECAST_AVAILABLE w = false ->
  get_forecast holt_winters w = (Return Unavailable, w).
Proof. intros H. unfold get_forecast. now rewrite H. Qed.

Lemma get_forecast_insufficient (w : World) :
  FORECAST_AVAILABLE w = true ->
  (List.length (weekly w) < 8)%nat ->
  get_forecast holt_winters w
  = (Return (InsufficientData (List.length (weekly w)) 8), after_read w).
Proof.
  intros Hav Hlen. unfold get_forecast. rewrite Hav. simpl.
  unfold try_except, forecast_body, bind.
  rewrite prepare_weekly_run.
  apply Nat.ltb_lt in Hlen. now rewrite Hlen.
Qed.

Lemma get_forecast_quality (w : World) :
  FORECAST_AVAILABLE w = true ->
  (8 <= List.length (weekly w))%nat ->
  Qle_bool (zero_pct (weekly w)) (1 # 2) = false ->
  get_forecast holt_winters w
  = (Return (DataQualityIssue (py_round (zero_pct (weekly w) * 100) 1)),
     after_read w).
Proof.
  intros Hav Hlen Hz. unfold get_forecast. rewrite Hav. simpl.
  unfold try_except, forecast_body, bind.
  rewrite prepare_weekly_run.
  apply Nat.ltb_ge in Hlen. rewrite Hlen.
  fold (zero_pct (weekly w)). now rewrite Hz.
Qed.

(** Past both gates the model is asked for, and the answer decides. *)
Lemma get_forecast_fit (w : World) :
  FORECAST_AVAILABLE w = true ->
  (8 <= List.length (weekly w))%nat ->
  Qle_bool (zero_pct (weekly w)) (1 # 2) = true ->
  let w1 := after_read (with_call (after_read w) (fit_call w)) in
  get_forecast holt_winters w
  = match holt_winters (weekly w)
                       (Nat.min 4 (List.length (weekly w) / 2)) with
    | Fitted predict =>
        let total_predicted :=
          py_round (qsum (dropna (raw_forecast predict))) 2 in
        (Return
           (Forecast
              (mkForecastResult
                 total_predicted "4 weeks"
                 (if negb (Qle_bool (total_history (ledger w)) 0)
                  then map (fun ct =>
                              (fst ct,
                               py_round (snd ct / total_history (ledger w)
                                         * total_predicted) 2))
                           (cat_totals (ledger w))
                  else [])
                 (map (fun dv =>
                         (fst dv,
                          option_map (fun v => py_round v 2) (snd dv)))
                      (combine
                         (date_range_W
                            (index_last (weekly w) + Timedelta_weeks 1) 4)
                         (raw_forecast predict)))
                 "Holt-Winters Exponential Smoothing"
                 (List.length (weekly w)))), w1)
    | FitRaises (ValueError details) =>
        (Return (ModelFittingFailed details),
         with_call (after_read w) (fit_call w))
    | FitRaises (Exception message) =>
        (Return (ForecastingFailed message),
         with_line (with_call (after_read w) (fit_call w))
                   ("Forecast Error: " ++ message))
    end.
Proof.
  intros Hav Hlen Hz w1. unfold get_forecast. rewrite Hav.
  cbv beta iota delta [negb].
  unfold try_except, forecast_body, bind.
  rewrite prepare_weekly_run.
  apply Nat.ltb_ge in Hlen. rewrite Hlen.
  fold (zero_pct (weekly w)). rewrite Hz.
  cbv beta iota zeta delta [negb fit_and_forecast bind record_call].
  fold (fit_call w). fold (with_call (after_read w) (fit_call w)).
  destruct (holt_winters (weekly w) _) as [predict | [details | message]].
  - unfold ret at 1.
    rewrite read_data_run.
    assert (ledger (with_call (after_read w) (fit_call w)) = ledger w)
      as -> by (unfold ledger; simpl; now rewrite after_read_csv).
    reflexivity.
  - reflexivity.
  - reflexivity.
Qed.

End Route.

End Run.

(* ================================================================== *)
(** ** The sufficiency and quality gates *)
(* ================================================================== *)

Module Gates.

Import Num NumFacts Calendar Pandas App Ledger Run Samples.

Lemma zero_pct_le_half (data : Series) :
  (0 < List.length data)%nat ->
  (Qle_bool (zero_pct data) (1 # 2) = true
   <-> (2 * count_zero data <= List.length data)%nat).
Proof.
  intros Hpos. rewrite Qle_bool_iff. unfold zero_pct.
  destruct (List.length data) as [| n] eqn:E; [lia |].
  set (z := count_zero data).
  unfold Qle, Qdiv, Qmult, Qinv. cbn -[Z.mul Z.of_nat Pos.mul].
  rewrite Nat2Z.inj_succ. unfold Z.succ.
  destruct (Z.of_nat n + 1)%Z eqn:En; try lia.
  cbn -[Z.mul Z.of_nat Pos.mul]. lia.
Qed.

Lemma count_zero_le (data : Series) :
  (count_zero data <= List.length data)%nat.
Proof. unfold count_zero. apply filter_length_le. Qed.

(** C2, as stated, fails where statsmodels is missing: the empty ledger
    then gets the capability error, not the insufficient-data one. *)
Lemma insufficient_data_not_when_unavailable :
  let w := mkWorld false NoFile [] [] in
  (distinct_weeks (ledger w) < 8)%nat /\
  get_forecast linear_model w = (Return Unavailable, w) /\
  fst (get_forecast linear_model w) <> Return (InsufficientData 0 8).
Proof.
  cbv zeta. split; [vm_compute; lia |]. split; [reflexivity |].
  rewrite get_forecast_unavailable by reflexivity. discriminate.
Qed.

(** C2 (amended): where forecasting is available, a ledger whose
    transactions span fewer than 8 distinct weeks (the empty ledger has 0)
    gets the insufficient-data error with [current_weeks] the number of
    distinct weeks and [required_weeks] 8, and statsmodels is not
    called. *)
Theorem insufficient_data_below_8_weeks
        (holt_winters : Series -> nat -> FitOutcome) (w : World) :
  FORECAST_AVAILABLE w = true ->
  (distinct_weeks (ledger w) < 8)%nat ->
  get_forecast holt_winters w
  = (Return (InsufficientData (distinct_weeks (ledger w)) 8), after_read w)
  /\ model_calls (snd (get_forecast holt_winters w)) = model_calls w
  /\ (ledger w = [] -> distinct_weeks (ledger w) = 0%nat).
Proof.
  intros Hav Hlt.
  assert (List.length (weekly w) = distinct_weeks (ledger w)) as Hlen
      by apply weekly_series_length.
  assert (get_forecast holt_winters w
          = (Return (InsufficientData (distinct_weeks (ledger w)) 8),
             after_read w)) as Hrun.
  { rewrite <- Hlen. apply get_forecast_insufficient; [exact Hav | lia]. }
  split; [exact Hrun |]. split.
  - rewrite Hrun. simpl. apply after_read_calls.
  - intros ->. reflexivity.
Qed.

Lemma insufficient_data_three_weeks :
  get_forecast linear_model (world_of true three_weeks)
  = (Return (InsufficientData 3 8), world_of true three_weeks).
Proof.
  apply (insufficient_data_below_8_weeks linear_model
           (world_of true three_weeks)).
  - reflexivity.
  - vm_compute. lia.
Defined.


Lemma py_round_rounded_cent (x : Q) : rounded_to (1 # 100) x (py_round x 2).
Proof.
  split.
  - exists (round_half_even (x * inject_Z 100)). unfold py_round.
    change (pow10 2) with 100%positive.
    unfold Qeq. simpl. lia.
  - apply Qabs_Qle_condition. pose proof (py_round_2_near x) as H.
    change ((1 # 100) / 2)%Q with (1 # 200)%Q.
    destruct H as [H1 H2]. split; lra.
Qed.











(** C4: for a weekly series of length L >= 8 that gets past both gates,
    the model statsmodels is asked for is the one of that series with the
    seasonal period min(4, floor(L/2)): what the fit returns or raises
    there, and nothing else of statsmodels, decides the answer.  That
    period is 4 (so for L = 8 and L = 9), at most 4 and at most half of
    L. *)
Theorem seasonal_period_is_min_4_half (w : World) :
  FORECAST_AVAILABLE w = true ->
  let L := List.length (weekly w) in
  (8 <= L)%nat ->
  (2 * count_zero (weekly w) <= L)%nat ->
  let sp := Nat.min 4 (L / 2) in
  (forall holt_winters details,
     holt_winters (weekly w) sp = FitRaises (ValueError details) ->
     fst (get_forecast holt_winters w) = Return (ModelFittingFailed details))
  /\ (forall holt_winters message,
        holt_winters (weekly w) sp = FitRaises (Exception message) ->
        fst (get_forecast holt_winters w)
        = Return (ForecastingFailed message))
  /\ (forall holt_winters predict,
        holt_winters (weekly w) sp = Fitted predict ->
        exists r, fst (get_forecast holt_winters w) = Return (Forecast r)
                  /\ data_points_used r = L
                  /\ List.length (timeline r) = 4%nat)
  /\ (forall hw1 hw2 : Series -> nat -> FitOutcome,
        hw1 (weekly w) sp = hw2 (weekly w) sp ->
        get_forecast hw1 w = get_forecast hw2 w)
  /\ (forall holt_winters,
        model_calls (snd (get_forecast holt_winters w))
        = model_calls w ++ [mkModelCall (weekly w) sp 4])
  /\ sp = 4%nat
  /\ (sp <= 4)%nat
  /\ (2 * sp <= L)%nat.
Proof.
  intros Hav L HL Hz sp.
  assert (sp = 4%nat) as Hsp.
  { unfold sp. apply Nat.min_l.
    apply (Nat.Div0.div_le_mono 8 L 2) in HL. exact HL. }
  assert (Qle_bool (zero_pct (weekly w)) (1 # 2) = true) as Hq
      by (apply zero_pct_le_half; fold L; lia).
  assert (forall holt_winters,
            get_forecast holt_winters w
            = _) as Hrun
      by (intros holt_winters;
          exact (@get_forecast_fit holt_winters w Hav HL Hq)).
  cbv zeta in Hrun. fold L in Hrun. fold sp in Hrun.
  split; [| split; [| split; [| split; [| split]]]].
  - intros holt_winters details E. now rewrite Hrun, E.
  - intros holt_winters message E. now rewrite Hrun, E.
  - intros holt_winters predict E. rewrite Hrun, E. cbn [fst].
    eexists. split; [reflexivity |]. split; reflexivity.
  - intros hw1 hw2 E. now rewrite (Hrun hw1), (Hrun hw2), E.
  - intros holt_winters. rewrite Hrun.
    destruct (holt_winters (weekly w) sp) as [predict | [d | m]]; simpl;
      rewrite ?after_read_calls; simpl; rewrite ?after_read_calls;
      reflexivity.
  - split; [exact Hsp | split; lia].
Qed.

(** A stand-in whose fit raises. *)
Lemma seasonal_period_eight_weeks :
  fst (get_forecast
         (fun data sp =>
            match sp with
            | 4%nat => FitRaises (ValueError "no seasonal pattern")
            | _ => linear_model data sp
            end)
         (world_of true eight_weeks))
  = Return (ModelFittingFailed "no seasonal pattern").
Proof.
  refine (proj1 (@seasonal_period_is_min_4_half
                   (world_of true eight_weeks) eq_refl _ _) _ _ eq_refl).
  - vm_compute. lia.
  - vm_compute. lia.
Defined.

End Gates.

(* ================================================================== *)
(** ** The successful forecast *)
(* ================================================================== *)

Module Success.

Import Num NumFacts Calendar Pandas App Ledger GroupFacts Run Gates Samples.

(** What a successful answer is made of. *)
Lemma forecast_inv (holt_winters : Series -> nat -> FitOutcome)
      (w w' : World) (r : ForecastResult) :
  get_forecast holt_winters w = (Return (Forecast r), w') ->
  FORECAST_AVAILABLE w = true /\
  (8 <= List.length (weekly w))%nat /\
  exists predict,
    holt_winters (weekly w) (Nat.min 4 (List.length (weekly w) / 2))
    = Fitted predict /\
    total_forecast r = py_round (qsum (dropna (raw_forecast predict))) 2 /\
    pie r = (if negb (Qle_bool (total_history (ledger w)) 0)
             then map (fun ct =>
                         (fst ct,
                          py_round (snd ct / total_history (ledger w)
                                    * total_forecast r) 2))
                      (cat_totals (ledger w))
             else []) /\
    timeline r = map (fun dv =>
                        (fst dv, option_map (fun v => py_round v 2) (snd dv)))
                     (combine
                        (date_range_W
                           (index_last (weekly w) + Timedelta_weeks 1) 4)
                        (raw_forecast predict)).
Proof.
  intros H.
  destruct (FORECAST_AVAILABLE w) eqn:Hav.
  2:{ rewrite get_forecast_unavailable in H by exact Hav. discriminate. }
  destruct (Nat.lt_ge_cases (List.length (weekly w)) 8) as [Hlt | Hge].
  { rewrite get_forecast_insufficient in H by assumption. discriminate. }
  destruct (Qle_bool (zero_pct (weekly w)) (1 # 2)) eqn:Hq.
  2:{ rewrite get_forecast_quality in H by assumption. discriminate. }
  rewrite get_forecast_fit in H by assumption.
  split; [reflexivity |]. split; [exact Hge |].
  destruct (holt_winters (weekly w) _) as [predict | [d | m]];
    try discriminate.
  exists predict. inversion H; subst r. simpl.
  repeat split; reflexivity.
Qed.

(** *** The dates of the timeline *)

Lemma weekday_week_start (d : Z) : weekday (week_start d) = 0%Z.
Proof.
  unfold week_start, weekday.
  pose proof (Z.div_mod (d + 3) 7 ltac:(lia)) as E.
  replace (d - (d + 3) mod 7 + 3)%Z with (((d + 3) / 7) * 7)%Z by lia.
  apply Z_mod_mult.
Qed.

Lemma rollforward_monday (d : Z) :
  weekday d = 0%Z -> rollforward (d + Timedelta_weeks 1) = (d + 13)%Z.
Proof.
  unfold rollforward, is_on_offset, weekday, Timedelta_weeks, SUNDAY.
  intros H.
  replace ((d + 7 * 1 + 3) mod 7)%Z with 0%Z.
  - simpl. lia.
  - rewrite <- H.
    replace (d + 7 * 1 + 3)%Z with (d + 3 + 1 * 7)%Z by lia.
    symmetry. apply Z_mod_plus_full.
Qed.

Lemma sorted_last_max (l : list Z) (d : Z) :
  StronglySorted (lt_key Z.compare) l ->
  forall k, In k l -> (k <= last l d)%Z.
Proof.
  induction 1 as [| h t Hs IH Hall]; intros k Hin.
  - destruct Hin.
  - destruct t as [| h' t'].
    + destruct Hin as [-> | []]. simpl. lia.
    + change (last (h :: h' :: t') d) with (last (h' :: t') d).
      destruct Hin as [-> | Hin].
      * rewrite Forall_forall in Hall.
        assert (lt_key Z.compare k h') as Hk by (apply Hall; now left).
        unfold lt_key in Hk. rewrite Z.compare_lt_iff in Hk.
        specialize (IH h' (or_introl eq_refl)). lia.
      * now apply IH.
Qed.

Lemma last_In (l : list Z) (d : Z) : l <> [] -> In (last l d) l.
Proof.
  induction l as [| h t IH]; [congruence |].
  intros _. destruct t as [| h' t'].
  - now left.
  - right. apply IH. discriminate.
Qed.

(** The last index of the weekly series is the Monday of the latest week
    that has a transaction. *)
Lemma index_last_weekly (w : World) :
  weekly w <> [] ->
  In (index_last (weekly w)) (map week_of (ledger w)) /\
  (forall r, In r (ledger w) -> (week_of r <= index_last (weekly w))%Z) /\
  weekday (index_last (weekly w)) = 0%Z.
Proof.
  intros Hne. unfold index_last, weekly in *.
  assert (map fst (weekly_series (numeric (ledger w))) <> []) as Hne'.
  { intros E. apply map_eq_nil in E. contradiction. }
  rewrite weekly_series_index in *.
  pose proof (last_In 0%Z Hne') as Hin.
  rewrite (@unique_sorted_In _ Z.compare Z_cmp_eq) in Hin.
  split; [exact Hin |]. split.
  - intros r Hr. apply sorted_last_max.
    + apply (@unique_sorted_sorted _ Z.compare Z_cmp_eq Z_cmp_antisym
                                   Z_cmp_trans).
    + rewrite (@unique_sorted_In _ Z.compare Z_cmp_eq).
      now apply in_map.
  - apply in_map_iff in Hin. destruct Hin as [r [<- _]].
    apply weekday_week_start.
Qed.

(** C1 (what the code does): a successful forecast has four timeline
    points, 7 days apart, and the first is 13 days after the Monday of the
    latest week of the series: [date_range] with [freq='W'] rolls the
    start (that Monday plus one week) forward to the next Sunday. *)
Theorem timeline_starts_13_days_after_last_week
        (holt_winters : Series -> nat -> FitOutcome)
        (w w' : World) (r : ForecastResult) :
  get_forecast holt_winters w = (Return (Forecast r), w') ->
  let last_week := index_last (weekly w) in
  In last_week (map week_of (ledger w)) /\
  (forall t, In t (ledger w) -> (week_of t <= last_week)%Z) /\
  List.length (timeline r) = 4%nat /\
  map fst (timeline r)
  = [last_week + 13; last_week + 20; last_week + 27; last_week + 34]%Z.
Proof.
  intros H last_week.
  apply forecast_inv in H.
  destruct H as [_ [Hlen [predict [_ [_ [_ Htl]]]]]].
  assert (weekly w <> []) as Hne.
  { intros E. rewrite E in Hlen. simpl in Hlen. lia. }
  destruct (@index_last_weekly w Hne) as [Hin [Hmax Hmon]].
  split; [exact Hin |]. split; [exact Hmax |].
  split; [now rewrite Htl |].
  rewrite Htl. unfold date_range_W.
  rewrite (@rollforward_monday _ Hmon). fold last_week.
  unfold raw_forecast. cbn [seq map combine fst Z.of_nat Pos.of_succ_nat].
  repeat (apply f_equal2; [lia |]). reflexivity.
Qed.

Lemma timeline_dates_eight_weeks :
  map fst (timeline eight_weeks_forecast)
  = map (fun md => days_from_civil 2024 (fst md) (snd md))
        [(3, 3); (3, 10); (3, 17); (3, 24)]%Z.
Proof.
  apply (@timeline_starts_13_days_after_last_week linear_model
           (world_of true eight_weeks)
           (snd (get_forecast linear_model (world_of true eight_weeks)))
           eight_weeks_forecast).
  reflexivity.
Defined.

(** The latest week of the eight-week ledger starts on Monday 2024-02-19;
    one week later is 2024-02-26, yet the first forecast date is Sunday
    2024-03-03. *)
Lemma first_forecast_date_eight_weeks :
  let w := world_of true eight_weeks in
  index_last (weekly w) = days_from_civil 2024 2 19 /\
  hd 0%Z (map fst (timeline eight_weeks_forecast))
  = days_from_civil 2024 3 3 /\
  hd 0%Z (map fst (timeline eight_weeks_forecast))
  <> (index_last (weekly w) + 7)%Z.
Proof. cbv zeta. repeat split. vm_compute. discriminate. Qed.

(** *** The category pie *)




Local Open Scope Q_scope.







Lemma eight_weeks_ordinary :
  ordinary_amounts (ledger (world_of true eight_weeks)).
Proof.
  split.
  - intros x Hx. vm_compute in Hx.
    repeat (destruct Hx as [<- | Hx]; [vm_compute; discriminate |]).
    destruct Hx.
  - vm_compute. discriminate.
Qed.


(** The pie of the eight weeks under the rising model. *)
Example pie_eight_weeks_values :
  pie eight_weeks_forecast
  = [("Bills"%string, 4298 # 100); ("Food"%string, 10035 # 100)].
Proof. reflexivity. Qed.

(** *** The amounts of the answer *)

Lemma rounded_negative (x a : Q) :
  rounded_to (1 # 100) x a -> x < - (1 # 200) -> a < 0.
Proof.
  intros [_ H] Hx. apply Qabs_Qle_condition in H.
  change ((1 # 100) / 2) with (1 # 200) in H. destruct H as [_ H]. lra.
Qed.




(** Under the falling model every exposed number is negative, the week
    without a prediction shows [NaN] and is left out of the total. *)
Example negative_amounts_eight_weeks :
  map snd (timeline eight_weeks_falling)
  = [Some (- (3433 # 100)); Some (- (3533 # 100)); None;
     Some (- (3733 # 100))]
  /\ total_forecast eight_weeks_falling = - (10700 # 100)
  /\ pie eight_weeks_falling
     = [("Bills"%string, - (3208 # 100)); ("Food"%string, - (7492 # 100))].
Proof. repeat split. Qed.

End Success.

(* ================================================================== *)
(** ** What the route depends on, and what it leaves alone *)
(* ================================================================== *)

Module Frame.

Import Num Calendar Pandas App Ledger Run Gates Success Samples.

Section Route.

Variable holt_winters : Series -> nat -> FitOutcome.

(** The route never writes the file nor the availability flag. *)
Lemma get_forecast_frame (w : World) :
  expenses_csv (snd (get_forecast holt_winters w)) = expenses_csv w /\
  FORECAST_AVAILABLE (snd (get_forecast holt_winters w))
  = FORECAST_AVAILABLE w.
Proof.
  destruct (FORECAST_AVAILABLE w) eqn:Hav.
  2:{ rewrite get_forecast_unavailable by exact Hav. now split. }
  destruct (Nat.lt_ge_cases (List.length (weekly w)) 8) as [Hlt | Hge].
  { rewrite get_forecast_insufficient by assumption. simpl.
    now rewrite after_read_csv, after_read_flag. }
  destruct (Qle_bool (zero_pct (weekly w)) (1 # 2)) eqn:Hq.
  2:{ rewrite get_forecast_quality by assumption. simpl.
      now rewrite after_read_csv, after_read_flag. }
  rewrite get_forecast_fit by assumption.
  destruct (holt_winters (weekly w) _) as [predict | [d | m]]; simpl;
    rewrite ?after_read_csv, ?after_read_flag; simpl;
    rewrite ?after_read_csv, ?after_read_flag; now split.
Qed.

(** The answer is a function of the availability flag, of the dated
    numeric amounts and of the categorised amounts. *)
Lemma get_forecast_depends (w1 w2 : World) :
  FORECAST_AVAILABLE w1 = FORECAST_AVAILABLE w2 ->
  numeric (ledger w1) = numeric (ledger w2) ->
  category_amounts (ledger w1) = category_amounts (ledger w2) ->
  fst (get_forecast holt_winters w1) = fst (get_forecast holt_winters w2).
Proof.
  intros Hflag Hnum Hcat.
  assert (weekly w1 = weekly w2) as Hweekly
      by (unfold weekly; now rewrite Hnum).
  assert (cat_totals (ledger w1) = cat_totals (ledger w2)) as Htot
      by (unfold cat_totals; now rewrite Hcat).
  assert (total_history (ledger w1) = total_history (ledger w2)) as Hhist
      by (unfold total_history; now rewrite Htot).
  destruct (FORECAST_AVAILABLE w1) eqn:Hav; symmetry in Hflag.
  2:{ now rewrite !get_forecast_unavailable by assumption. }
  destruct (Nat.lt_ge_cases (List.length (weekly w1)) 8) as [Hlt | Hge].
  { rewrite (get_forecast_insufficient holt_winters w1) by assumption.
    rewrite (get_forecast_insufficient holt_winters w2)
      by (try assumption; now rewrite <- Hweekly).
    simpl. now rewrite Hweekly. }
  destruct (Qle_bool (zero_pct (weekly w1)) (1 # 2)) eqn:Hq.
  2:{ rewrite (get_forecast_quality holt_winters w1) by assumption.
      rewrite (get_forecast_quality holt_winters w2)
        by (try assumption; now rewrite <- Hweekly).
      simpl. now rewrite Hweekly. }
  rewrite (get_forecast_fit holt_winters w1) by assumption.
  rewrite (get_forecast_fit holt_winters w2)
    by (try assumption; now rewrite <- Hweekly).
  rewrite Hweekly, Htot, Hhist.
  now destruct (holt_winters (weekly w2) _) as [predict | [d | m]].
Qed.

End Route.

(** What the route itself contributes to a repeatable forecast: its
    answer depends on the world through the file and the availability flag
    only, not through the console or the calls made before.  The fit is a
    function here, so this says nothing of statsmodels. *)
Theorem get_forecast_deterministic
        (holt_winters : Series -> nat -> FitOutcome) (w1 w2 : World) :
  expenses_csv w1 = expenses_csv w2 ->
  (FORECAST_AVAILABLE w1 = FORECAST_AVAILABLE w2 ->
   fst (get_forecast holt_winters w1) = fst (get_forecast holt_winters w2))
  /\ (forall r1 r2 w1' w2',
        get_forecast holt_winters w1 = (Return (Forecast r1), w1') ->
        get_forecast holt_winters w2 = (Return (Forecast r2), w2') ->
        total_forecast r1 = total_forecast r2
        /\ timeline r1 = timeline r2
        /\ pie r1 = pie r2)
  /\ fst (get_forecast holt_winters (snd (get_forecast holt_winters w1)))
     = fst (get_forecast holt_winters w1).
Proof.
  intros Hcsv.
  assert (ledger w1 = ledger w2) as Hledger
      by (unfold ledger; now rewrite Hcsv).
  assert (forall wa wb : World,
            expenses_csv wa = expenses_csv wb ->
            FORECAST_AVAILABLE wa = FORECAST_AVAILABLE wb ->
            fst (get_forecast holt_winters wa)
            = fst (get_forecast holt_winters wb)) as Hsame.
  { intros wa wb Hc Hf.
    apply get_forecast_depends; [exact Hf | |];
      unfold ledger; now rewrite Hc. }
  split; [now apply Hsame |]. split.
  - intros r1 r2 w1' w2' H1 H2.
    assert (FORECAST_AVAILABLE w1 = FORECAST_AVAILABLE w2) as Hflag.
    { apply forecast_inv in H1. apply forecast_inv in H2.
      destruct H1 as [-> _]. destruct H2 as [-> _]. reflexivity. }
    pose proof (Hsame w1 w2 Hcsv Hflag) as E.
    rewrite H1, H2 in E. simpl in E. inversion E. now subst.
  - destruct (get_forecast_frame holt_winters w1) as [Hc Hf].
    apply Hsame; assumption.
Qed.

Lemma get_forecast_deterministic_eight_weeks :
  fst (get_forecast linear_model (world_of true eight_weeks))
  = fst (get_forecast linear_model eight_weeks_later).
Proof.
  exact (proj1 (@get_forecast_deterministic linear_model
                  (world_of true eight_weeks) eight_weeks_later eq_refl)
               eq_refl).
Defined.

(** C8: no handler of the forecast writes the ledger: after [read_data],
    after [prepare_data_for_forecast] in either mode and after
    [get_forecast], whatever it answers, the file is what it was. *)
Theorem get_forecast_leaves_ledger_unchanged
        (holt_winters : Series -> nat -> FitOutcome) (w : World) :
  expenses_csv (snd (get_forecast holt_winters w)) = expenses_csv w
  /\ (forall method,
        expenses_csv (snd (prepare_data_for_forecast method w))
        = expenses_csv w)
  /\ expenses_csv (snd (read_data w)) = expenses_csv w.
Proof.
  split; [apply get_forecast_frame |]. split.
  - intros [|].
    + rewrite prepare_daily_run. apply after_read_csv.
    + rewrite prepare_weekly_run. apply after_read_csv.
  - rewrite read_data_run. apply after_read_csv.
Qed.

(** *** Amounts that do not parse *)






End Frame.

(* ================================================================== *)
(** ** The daily series *)
(* ================================================================== *)

Module DailyFacts.

Import Num NumFacts Calendar Pandas App Ledger GroupFacts Run Samples.

(** *** Lists *)








(** *** The index of the daily series *)







(** *** Reindexing the daily totals *)






(** *** The rolling mean, by date *)




(** *** The daily series against its contract *)







(** *** Whole days as timestamps at midnight *)














(** *** Amounts none of which is negative *)

Local Open Scope Q_scope.





Section NonNegative.

Variable df : DataFrame.
Hypothesis amounts_nonneg : nonneg_amounts df.








End NonNegative.





(** A ledger whose amounts are all zero or unreadable: the rolling and the
    global mean have no sample, the entries stay [NaN]. *)
Example all_zero_stays_nan :
  fst (prepare_data_for_forecast Daily
         (world_of true [ txn 2024 1 1 "Food" (Junk "n/a");
                          txn 2024 1 3 "Food" (Value 0) ]))
  = Return [ (days_from_civil 2024 1 1, None);
             (days_from_civil 2024 1 2, None);
             (days_from_civil 2024 1 3, None) ].
Proof. reflexivity. Qed.

End DailyFacts.

(* ================================================================== *)
(** ** Amounts that do not parse *)
(* ================================================================== *)

Module Coercion.

Import Num NumFacts Calendar Pandas App Ledger GroupFacts Run Gates Success.
Import Frame DailyFacts Samples.

Local Open Scope Q_scope.




Example malformed_week_is_a_zero_week :
  map (fun e => option_map Qred (snd e))
      (weekly (world_of true with_malformed))
  = [Some 10; Some 20; Some 30; Some 40; Some 10; Some 20; Some 30;
     Some (401 # 10); Some 0].
Proof. reflexivity. Qed.

End Coercion.

(* ================================================================== *)
(** ** Reading back what was saved *)
(* ================================================================== *)

Module StoreFacts.

Import Num NumFacts Calendar Pandas App Ledger Run Store Routes Book Samples.

(** *** The insertion sort sorts *)

Lemma insert_by_date_perm (r : CsvRow) (rows : list CsvRow) :
  Permutation (r :: rows) (insert_by_date r rows).
Proof.
  induction rows as [| h t IH]; simpl; [reflexivity |].
  destruct (date_key r <=? date_key h)%Z; [reflexivity |].
  rewrite perm_swap. now apply perm_skip.
Qed.

Lemma insert_by_date_sorted (r : CsvRow) (rows : list CsvRow) :
  StronglySorted date_le rows -> StronglySorted date_le (insert_by_date r rows).
Proof.
  induction 1 as [| h t Hs IH Hall]; simpl.
  - constructor; constructor.
  - destruct (date_key r <=? date_key h)%Z eqn:E.
    + apply Z.leb_le in E. constructor; [now constructor |].
      constructor; [exact E |].
      rewrite Forall_forall in *. intros x Hx.
      specialize (Hall x Hx). unfold date_le in *. lia.
    + apply Z.leb_gt in E. constructor; [exact IH |].
      rewrite Forall_forall in *. intros x Hx.
      apply (Permutation_in _ (Permutation_sym (insert_by_date_perm r t)))
        in Hx.
      destruct Hx as [<- | Hx]; [unfold date_le; lia | now apply Hall].
Qed.

Lemma insertion_sort_sorts : sorts_by_date insertion_sort.
Proof.
  intros rows. unfold insertion_sort.
  induction rows as [| r rows [IHp IHs]]; simpl.
  - split; constructor.
  - split.
    + rewrite <- insert_by_date_perm. now apply perm_skip.
    + now apply insert_by_date_sorted.
Qed.

(** *** Frames and files *)

Lemma read_data_frame_run (w : World) :
  read_data_frame w = (Return (frame_of (expenses_csv w)), after_read w).
Proof.
  unfold read_data_frame, frame_of, after_read.
  destruct (expenses_csv w) as [| err | columns rows] eqn:E;
    try reflexivity.
  - unfold bind, print, ret. simpl. now rewrite E.
  - now destruct (issubset COLUMNS columns).
Qed.

Lemma labelled_from_cons (start : nat) (r : CsvRow) (rows : list CsvRow) :
  labelled_from start (r :: rows)
  = match csv_date r with
    | Value d => [(start, mkRow d (csv_category r) (csv_amount r)
                                (csv_description r))]
    | Junk _ => []
    end ++ labelled_from (S start) rows.
Proof. reflexivity. Qed.

Lemma labelled_rows_from (start : nat) (rows : list CsvRow) :
  map snd (labelled_from start rows) = to_datetime_dropna rows.
Proof.
  revert start. induction rows as [| r rows IH]; intros start;
    [reflexivity |].
  rewrite labelled_from_cons, map_app, IH.
  unfold to_datetime_dropna. simpl. now destruct (csv_date r).
Qed.

(** Without its labels, the frame is the ledger of the forecast. *)
Lemma frame_rows_ledger (w : World) :
  map snd (frame_rows (frame_of (expenses_csv w))) = ledger w.
Proof.
  unfold frame_of, ledger, transactions.
  destruct (expenses_csv w) as [| err | columns rows]; try reflexivity.
  destruct (issubset COLUMNS columns); [| reflexivity].
  apply labelled_rows_from.
Qed.

Lemma frame_columns_ok (f : CsvFile) :
  issubset COLUMNS (frame_columns (frame_of f)) = true.
Proof.
  unfold frame_of. destruct f as [| err | columns rows]; try reflexivity.
  destruct (issubset COLUMNS columns) eqn:E; [exact E | reflexivity].
Qed.

Lemma to_csv_row_dropna (rows : list CsvRow) :
  map to_csv_row (to_datetime_dropna rows) = filter has_date rows.
Proof.
  unfold to_datetime_dropna, has_date.
  induction rows as [| [d c a s] rows IH]; [reflexivity |].
  simpl. destruct d; simpl; now rewrite IH.
Qed.

Lemma dropna_to_csv_row (df : DataFrame) :
  to_datetime_dropna (map to_csv_row df) = df.
Proof.
  unfold to_datetime_dropna.
  induction df as [| [d c a s] df IH]; [reflexivity |].
  simpl. now rewrite IH.
Qed.

Lemma filter_all (A : Type) (p : A -> bool) (l : list A) :
  Forall (fun x => p x = true) l -> filter p l = l.
Proof.
  induction 1 as [| x l Hx Hl IH]; [reflexivity |].
  simpl. now rewrite Hx, IH.
Qed.

Lemma filter_has_date_all (rows : list CsvRow) :
  Forall (fun r => has_date r = true) (filter has_date rows).
Proof.
  apply Forall_forall. intros r Hr. now apply filter_In in Hr.
Qed.

Lemma by_date_to_csv (df : DataFrame) :
  StronglySorted date_le (map to_csv_row df) <-> by_date df.
Proof.
  unfold by_date. induction df as [| r df IH]; simpl.
  - split; constructor.
  - split; intros H; inversion H as [| ? ? Hs Hall]; subst;
      (constructor; [now apply IH |]).
    + rewrite Forall_forall in *. intros x Hx.
      apply (Hall (to_csv_row x)). now apply in_map.
    + rewrite Forall_forall in *. intros x Hx.
      apply in_map_iff in Hx. destruct Hx as [y [<- Hy]].
      apply (Hall y Hy).
Qed.

Lemma save_data_run (sort_values : list CsvRow -> list CsvRow)
      (columns : list string) (rows : list CsvRow) (w : World) :
  save_data sort_values columns rows w
  = (Return tt,
     mkWorld (FORECAST_AVAILABLE w)
             (Table columns (sort_values (filter has_date rows)))
             (stdout w) (model_calls w)).
Proof. reflexivity. Qed.

(** The ledger of a table with the four columns whose lines are a sorted
    arrangement of dated lines. *)
Lemma ledger_of_sorted (sort_values : list CsvRow -> list CsvRow)
      (columns : list string) (rows : list CsvRow) :
  sorts_by_date sort_values ->
  issubset COLUMNS columns = true ->
  Forall (fun r => has_date r = true) rows ->
  map to_csv_row (transactions (Table columns (sort_values rows)))
  = sort_values rows
  /\ Permutation rows (sort_values rows)
  /\ by_date (transactions (Table columns (sort_values rows))).
Proof.
  intros Hsort Hcols Hdated.
  destruct (Hsort rows) as [Hperm Hsorted].
  assert (map to_csv_row (transactions (Table columns (sort_values rows)))
          = sort_values rows) as E.
  { unfold transactions. rewrite Hcols, to_csv_row_dropna.
    apply filter_all. apply (Permutation_Forall Hperm). exact Hdated. }
  split; [exact E |]. split; [exact Hperm |].
  apply by_date_to_csv. now rewrite E.
Qed.

Lemma dropna_filter_has_date (rows : list CsvRow) :
  to_datetime_dropna (filter has_date rows) = to_datetime_dropna rows.
Proof.
  unfold to_datetime_dropna, has_date.
  induction rows as [| r rows IH]; [reflexivity |].
  simpl. destruct (csv_date r) eqn:E; simpl; rewrite ?E; now rewrite IH.
Qed.

Lemma dropna_app (a b : list CsvRow) :
  to_datetime_dropna (a ++ b) = to_datetime_dropna a ++ to_datetime_dropna b.
Proof. unfold to_datetime_dropna. apply flat_map_app. Qed.

(** The ledger of the table [save_data] writes for the rows of a frame
    followed by further lines. *)
Lemma written_ledger (sort_values : list CsvRow -> list CsvRow)
      (columns : list string) (df : DataFrame) (extra : list CsvRow) :
  sorts_by_date sort_values ->
  issubset COLUMNS columns = true ->
  let f := Table columns
                 (sort_values (filter has_date (map to_csv_row df ++ extra)))
  in
  Permutation (transactions f) (df ++ to_datetime_dropna extra)
  /\ by_date (transactions f).
Proof.
  intros Hsort Hcols f.
  set (rows := filter has_date (map to_csv_row df ++ extra)) in *.
  destruct (@ledger_of_sorted sort_values columns rows Hsort Hcols
              (filter_has_date_all _)) as [E [Hperm Hby]].
  split; [| exact Hby].
  assert (Permutation (map to_csv_row (transactions f)) rows) as HP
      by (unfold f; rewrite E; now apply Permutation_sym).
  apply (Permutation_flat_map
           (fun r => match csv_date r with
                     | Value d => [mkRow d (csv_category r) (csv_amount r)
                                         (csv_description r)]
                     | Junk _ => []
                     end)) in HP.
  change (Permutation (to_datetime_dropna (map to_csv_row (transactions f)))
                      (to_datetime_dropna rows)) in HP.
  rewrite dropna_to_csv_row in HP. unfold rows in HP.
  now rewrite dropna_filter_has_date, dropna_app, dropna_to_csv_row in HP.
Qed.

(** Saving then reading: [read_data] finds the dates, categories and
    amounts of the lines that have a date, in ascending order of date; the
    other lines are gone. *)
Theorem saved_rows_read_back (sort_values : list CsvRow -> list CsvRow)
        (columns : list string) (rows : list CsvRow) (w : World) :
  sorts_by_date sort_values ->
  issubset COLUMNS columns = true ->
  let w' := snd (save_data sort_values columns rows w) in
  read_data w' = (Return (ledger w'), w')
  /\ Permutation (map entry (ledger w')) (map entry (to_datetime_dropna rows))
  /\ by_date (ledger w')
  /\ List.length (ledger w') = List.length (filter has_date rows).
Proof.
  intros Hsort Hcols w'.
  destruct (@written_ledger sort_values columns [] rows Hsort Hcols)
    as [Hperm Hby].
  cbn [map app] in Hperm, Hby.
  assert (ledger w' = transactions
                        (Table columns (sort_values (filter has_date rows))))
    as El by reflexivity.
  split; [| split; [| split]].
  - rewrite read_data_run. reflexivity.
  - apply Permutation_map. now rewrite El.
  - now rewrite El.
  - rewrite El, (Permutation_length Hperm), <- to_csv_row_dropna.
    now rewrite length_map.
Qed.

Lemma saved_rows_read_back_undated :
  Permutation
    (map entry (ledger (snd (save_data insertion_sort COLUMNS
                                       with_undated_line
                                       (world_of true [])))))
    (map entry (to_datetime_dropna with_undated_line)).
Proof.
  exact (proj1 (proj2 (@saved_rows_read_back insertion_sort COLUMNS
                         with_undated_line (world_of true [])
                         insertion_sort_sorts eq_refl))).
Defined.

End StoreFacts.

(* ================================================================== *)
(** ** Adding, deleting and clearing expenses *)
(* ================================================================== *)

Module RouteFacts.

Import Num NumFacts Calendar Pandas App Ledger GroupFacts Run Gates.
Import Store Routes Book StoreFacts Samples.

Lemma valid_category_In (c : string) :
  existsb (String.eqb c) VALID_CATEGORIES = true <-> In c VALID_CATEGORIES.
Proof.
  rewrite existsb_exists. split.
  - intros [x [Hx E]]. apply String.eqb_eq in E. now subst.
  - intros H. exists c. split; [exact H | apply String.eqb_refl].
Qed.

Section Handlers.

Variable sort_values : list CsvRow -> list CsvRow.
Variable float_of_string : string -> option (option Q).
Variable strptime_ymd : string -> bool.
Variable to_datetime_string : string -> Cell Z.
Variable str_strip : string -> string.

Let add := add_expense sort_values float_of_string strptime_ymd
                       to_datetime_string str_strip.

(** The world once an accepted expense has been saved. *)
Let saved (w : World) (new_row : CsvRow) : World :=
  mkWorld (FORECAST_AVAILABLE w)
          (Table (frame_columns (frame_of (expenses_csv w)))
                 (sort_values
                    (filter has_date
                       (map (fun ir => to_csv_row (snd ir))
                            (frame_rows (frame_of (expenses_csv w)))
                        ++ [new_row]))))
          (stdout (after_read w)) (model_calls w).

(** Every run of [add_expense] either leaves the world as it was, without
    creating anything, or went through every check and saved. *)
Lemma add_expense_inv (body : Body) (w w' : World)
      (out : Outcome AddResponse) :
  add body w = (out, w') ->
  (w' = w /\ forall s c a d, out <> Return (Created s c a d))
  \/ exists data s c a d,
       body = Object data
       /\ missing_fields data = []
       /\ float_of float_of_string (field data "amount") = Some a
       /\ float_le_0 a = false
       /\ field data "date" = JStr s /\ strptime_ymd s = true
       /\ field data "category" = JStr c /\ In c VALID_CATEGORIES
       /\ out = Return (Created s c a d)
       /\ w' = saved w (mkCsvRow (to_datetime_string s) (Some c)
                                 (float_cell a) d).
Proof.
  unfold add, add_expense.
  assert (forall r : AddResponse,
            (forall s c a d, r <> Created s c a d) ->
            ret r w = (out, w') ->
            w' = w /\ forall s c a d, out <> Return (Created s c a d))
    as Hret.
  { intros r Hr H. inversion H; subst. split; [reflexivity |].
    intros s c a d E. inversion E. now apply (Hr s c a d). }
  assert (forall e : Exn,
            @raise AddResponse e w = (out, w') ->
            w' = w /\ forall s c a d, out <> Return (Created s c a d))
    as Hraise.
  { intros e H. inversion H; subst. split; [reflexivity | discriminate]. }
  destruct body as [e | | b | x | t | items | data].
  1:{ intros H; left; now apply Hraise in H. }
  1:{ intros H; left; now apply Hret in H. }
  1:{ destruct b; intros H; left;
        [now apply Hraise in H | now apply Hret in H]. }
  1:{ destruct (truthy (JNum x)); intros H; left;
        [now apply Hraise in H | now apply Hret in H]. }
  1:{ destruct (String.eqb t ""); [intros H; left; now apply Hret in H |].
      destruct (existsb _ required); intros H; left;
        [now apply Hraise in H | now apply Hret in H]. }
  1:{ destruct items as [| v items];
        [intros H; left; now apply Hret in H |].
      destruct (existsb _ required); intros H; left;
        [now apply Hraise in H | now apply Hret in H]. }
  destruct data as [| kv rest]; [intros H; left; now apply Hret in H |].
  set (data := kv :: rest).
  destruct (missing_fields data) as [| m ms] eqn:Hmiss;
    [| intros H; left; now apply Hret in H].
  destruct (float_of float_of_string (field data "amount")) as [a |] eqn:Hf;
    [| intros H; left; now apply Hret in H].
  destruct (float_le_0 a) eqn:Ha;
    [intros H; left; now apply Hret in H |].
  destruct (field data "date") as [| b | q | s | e] eqn:Hdate;
    try (intros H; left; now apply Hraise in H).
  destruct (strptime_ymd s) eqn:Hs; cbn [negb];
    [| intros H; left; now apply Hret in H].
  destruct (field data "category") as [| b | q | c | e] eqn:Hcat;
    try (intros H; left; now apply Hret in H).
  destruct (existsb (String.eqb c) VALID_CATEGORIES) eqn:Hc;
    cbn [negb]; [| intros H; left; now apply Hret in H].
  apply valid_category_In in Hc.
  assert (forall d,
            bind (ret d)
                 (fun description =>
                    bind read_data_frame
                         (fun df =>
                            bind (save_data sort_values (frame_columns df)
                                    (map (fun ir => to_csv_row (snd ir))
                                         (frame_rows df)
                                     ++ [mkCsvRow (to_datetime_string s)
                                                  (Some c) (float_cell a)
                                                  description]))
                                 (fun _ => ret (Created s c a description))))
                 w
            = (Return (Created s c a d),
               saved w (mkCsvRow (to_datetime_string s) (Some c)
                                 (float_cell a) d))) as Hrun.
  { intros d. unfold bind at 1. unfold ret at 1. unfold bind at 1.
    rewrite read_data_frame_run. unfold bind, ret.
    rewrite save_data_run. unfold saved.
    now rewrite after_read_flag, after_read_calls. }
  destruct (dict_get data "description") as [[| b | q | t | e] |];
    try (intros H; left; unfold bind in H; now apply Hraise in H).
  - cbv iota. rewrite Hrun. intros H. inversion H. right.
    exists data, s, c, a, (str_strip t). repeat split; assumption.
  - cbv iota. rewrite Hrun. intros H. inversion H. right.
    exists data, s, c, a, (str_strip ""). repeat split; assumption.
Qed.

Lemma dropna_one (cell : Cell Z) (c : option string) (a : Cell Q)
      (d : string) :
  to_datetime_dropna [mkCsvRow cell c a d]
  = match cell with
    | Value day => [mkRow day c a d]
    | Junk _ => []
    end.
Proof. now destruct cell. Qed.

(** The ledger once an accepted expense has been saved. *)
Lemma saved_ledger (w : World) (new_row : CsvRow) :
  sorts_by_date sort_values ->
  Permutation (ledger (saved w new_row))
              (ledger w ++ to_datetime_dropna [new_row])
  /\ by_date (ledger (saved w new_row)).
Proof.
  intros Hsort. unfold ledger, saved. cbn [expenses_csv].
  rewrite <- (map_map snd to_csv_row).
  fold (ledger w). rewrite frame_rows_ledger.
  apply written_ledger; [exact Hsort | apply frame_columns_ok].
Qed.

(** An answer other than "created", or an exception, leaves the world as it
    was: every check comes before the ledger is read or written. *)
Theorem add_expense_rejection_changes_nothing
        (body : Body) (w w' : World) (out : Outcome AddResponse) :
  add body w = (out, w') ->
  (forall s c a d, out <> Return (Created s c a d)) ->
  w' = w.
Proof.
  intros H Hno. apply add_expense_inv in H.
  destruct H as [[E _] | [data [s [c [a [d H]]]]]]; [exact E |].
  exfalso. apply (Hno s c a d). apply H.
Qed.

(** In a body that is a non-empty JSON object, a required field that is
    absent or not truthy (the number 0, the empty string, null, false) is
    answered as missing, the amount 0 included. *)
Theorem add_expense_falsy_field_is_missing
        (data : Dict) (f : string) (w : World) :
  data <> [] ->
  In f ["date"; "category"; "amount"]%string ->
  (dict_get data f = None
   \/ exists v, dict_get data f = Some v /\ truthy v = false) ->
  exists missing,
    add (Object data) w = (Return (MissingFields missing), w)
    /\ In f missing.
Proof.
  intros Hne Hf Hfalsy.
  assert (In f (missing_fields data)) as Hin.
  { unfold missing_fields. apply filter_In. split; [exact Hf |].
    destruct Hfalsy as [-> | [v [-> ->]]]; reflexivity. }
  exists (missing_fields data). split; [| exact Hin].
  unfold add, add_expense.
  destruct data as [| kv rest]; [congruence |].
  destruct (missing_fields (kv :: rest)); [destruct Hin | reflexivity].
Qed.

Lemma float_le_0_false (a : option Q) :
  float_le_0 a = false <-> forall q, a = Some q -> (0 < q)%Q.
Proof.
  destruct a as [q |]; simpl.
  - split.
    + intros H x E. inversion E; subst x.
      apply Qnot_le_lt. intros Hle. apply Qle_bool_iff in Hle. congruence.
    + intros H. apply not_true_is_false. intros E.
      apply Qle_bool_iff in E. apply (Qlt_not_le _ _ (H q eq_refl) E).
  - split; [discriminate | reflexivity].
Qed.

Lemma created_ledger
      (body : Body) (w w' : World) (s c d : string) (a : option Q) :
  sorts_by_date sort_values ->
  add body w = (Return (Created s c a d), w') ->
  float_le_0 a = false /\ In c VALID_CATEGORIES /\ strptime_ymd s = true
  /\ by_date (ledger w')
  /\ (forall day, to_datetime_string s = Value day ->
        Permutation (ledger w')
                    (ledger w ++ [mkRow day (Some c) (float_cell a) d]))
  /\ (forall text, to_datetime_string s = Junk text ->
        Permutation (ledger w') (ledger w)).
Proof.
  intros Hsort H. apply add_expense_inv in H.
  destruct H as [[_ Hno] | [data [s' [c' [a' [d' H]]]]]];
    [exfalso; now apply (Hno s c a d) |].
  destruct H as [_ [_ [_ [Ha [_ [Hs [_ [Hc [E ->]]]]]]]]].
  inversion E; subst s' c' a' d'.
  destruct (saved_ledger w (mkCsvRow (to_datetime_string s) (Some c)
                                     (float_cell a) d) Hsort)
    as [Hperm Hby].
  rewrite dropna_one in Hperm.
  repeat (split; [assumption |]).
  split; intros x Hx; rewrite Hx in Hperm |- *.
  - exact Hperm.
  - now rewrite app_nil_r in Hperm.
Qed.

(** An accepted expense has one of the categories and an amount that is
    positive if it is a number, and is then in the ledger, which is in
    ascending order of date and holds the former transactions; but where
    pandas does not read the accepted date, the answer is "created" and the
    expense is not stored. *)
Theorem add_expense_created_is_stored
        (body : Body) (w w' : World) (s c d : string) (a : option Q) :
  sorts_by_date sort_values ->
  add body w = (Return (Created s c a d), w') ->
  (forall q, a = Some q -> (0 < q)%Q)
  /\ In c VALID_CATEGORIES /\ strptime_ymd s = true
  /\ by_date (ledger w')
  /\ (forall day, to_datetime_string s = Value day ->
        exists r, Permutation (ledger w') (ledger w ++ [r])
                  /\ entry r = (day, Some c, float_cell a))
  /\ (forall text, to_datetime_string s = Junk text ->
        Permutation (ledger w') (ledger w)).
Proof.
  intros Hsort H.
  destruct (created_ledger _ _ Hsort H) as [Ha [Hc [Hs [Hby [Hval Hjunk]]]]].
  split; [now apply float_le_0_false |].
  repeat (split; [assumption |]).
  split; [| exact Hjunk].
  intros day Hday. eexists. split; [apply (Hval day Hday) | reflexivity].
Qed.

(** Adding to a file that [read_data] does not accept (unreadable, or
    without one of the four columns) replaces it: the file then holds the
    four columns and the new expense alone. *)
Theorem add_expense_replaces_unaccepted_file
        (body : Body) (w w' : World) (s c d : string) (a : option Q)
        (day : Z) :
  sorts_by_date sort_values ->
  add body w = (Return (Created s c a d), w') ->
  to_datetime_string s = Value day ->
  (expenses_csv w = NoFile
   \/ (exists err, expenses_csv w = Unreadable err)
   \/ (exists columns rows, expenses_csv w = Table columns rows
                            /\ issubset COLUMNS columns = false)) ->
  exists text,
    expenses_csv w'
    = Table COLUMNS [mkCsvRow (Value day) (Some c) (float_cell a) text].
Proof.
  intros Hsort H Hday Hfile. apply add_expense_inv in H.
  destruct H as [[_ Hno] | [data [s' [c' [a' [d' H]]]]]];
    [exfalso; now apply (Hno s c a d) |].
  destruct H as [_ [_ [_ [_ [_ [_ [_ [_ [E ->]]]]]]]]].
  inversion E; subst s' c' a' d'.
  assert (frame_of (expenses_csv w) = empty_frame) as Ef.
  { destruct Hfile as [-> | [[err ->] | [columns [rows [-> Hc]]]]];
      try reflexivity.
    unfold frame_of. now rewrite Hc. }
  exists d. unfold saved. cbn [expenses_csv]. rewrite Ef, Hday.
  cbn [frame_columns frame_rows empty_frame map app filter has_date csv_date].
  f_equal.
  destruct (Hsort [mkCsvRow (Value day) (Some c) (float_cell a) d])
    as [Hperm _].
  now apply Permutation_length_1_inv in Hperm.
Qed.

(** *** Weeks *)

Lemma distinct_weeks_perm (l l' : DataFrame) :
  Permutation l l' -> distinct_weeks l = distinct_weeks l'.
Proof.
  intros HP. unfold distinct_weeks.
  apply Permutation_length, NoDup_Permutation; try apply NoDup_nodup.
  intros x. rewrite !nodup_In.
  split; apply Permutation_in; [| apply Permutation_sym];
    now apply Permutation_map.
Qed.

Lemma distinct_weeks_cons (r : Row) (l : DataFrame) :
  (distinct_weeks l <= distinct_weeks (r :: l) <= S (distinct_weeks l))%nat.
Proof.
  unfold distinct_weeks. simpl.
  destruct (in_dec Z.eq_dec (week_of r) (map week_of l)); simpl; lia.
Qed.

(** One accepted expense moves the number of weeks of the ledger by at most
    one, so the forecast stays refused for lack of data until seven weeks
    were there before it. *)
Theorem add_expense_adds_at_most_one_week
        (body : Body) (w w' : World) (s c d : string) (a : option Q) :
  sorts_by_date sort_values ->
  add body w = (Return (Created s c a d), w') ->
  let n := distinct_weeks (ledger w) in
  let n' := distinct_weeks (ledger w') in
  (n <= n' <= n + 1)%nat
  /\ forall holt_winters,
       FORECAST_AVAILABLE w = true -> (n < 7)%nat ->
       fst (get_forecast holt_winters w') = Return (InsufficientData n' 8).
Proof.
  intros Hsort H n n'.
  assert (FORECAST_AVAILABLE w' = FORECAST_AVAILABLE w) as Hflag.
  { apply add_expense_inv in H.
    destruct H as [[_ Hno] | [data [s' [c' [a' [d' H]]]]]];
      [exfalso; now apply (Hno s c a d) |].
    destruct H as [_ [_ [_ [_ [_ [_ [_ [_ [_ ->]]]]]]]]]. reflexivity. }
  assert (n <= n' <= n + 1)%nat as Hn.
  { destruct (created_ledger _ _ Hsort H)
      as [_ [_ [_ [_ [Hval Hjunk]]]]].
    unfold n, n'. destruct (to_datetime_string s) as [day | text] eqn:E.
    - rewrite (distinct_weeks_perm (Hval day eq_refl)).
      rewrite (distinct_weeks_perm
                 (Permutation_sym (Permutation_cons_append (ledger w) _))).
      pose proof (distinct_weeks_cons
                    (mkRow day (Some c) (float_cell a) d) (ledger w)).
      lia.
    - rewrite (distinct_weeks_perm (Hjunk text eq_refl)). lia. }
  split; [exact Hn |].
  intros holt_winters Hav Hlt.
  rewrite get_forecast_insufficient.
  - simpl. unfold weekly. now rewrite weekly_series_length.
  - now rewrite Hflag.
  - unfold weekly. rewrite weekly_series_length. fold n'. lia.
Qed.

(** An amount that is NaN passes the test of positivity: the expense is
    answered as created and stored with a missing amount, which the
    statistics and the forecast count as zero, so that the ledger no longer
    has positive amounts only. *)
Theorem add_expense_accepts_nan_amount
        (data : Dict) (s c : string) (day : Z) (w : World) :
  sorts_by_date sort_values ->
  missing_fields data = [] ->
  float_of float_of_string (field data "amount") = Some None ->
  field data "date" = JStr s -> strptime_ymd s = true ->
  to_datetime_string s = Value day ->
  field data "category" = JStr c -> In c VALID_CATEGORIES ->
  dict_get data "description" = None ->
  let w' := snd (add (Object data) w) in
  fst (add (Object data) w) = Return (Created s c None (str_strip ""))
  /\ (exists r, Permutation (ledger w') (ledger w ++ [r])
                /\ date r = day /\ category r = Some c
                /\ to_numeric_fillna0 (amount r) = 0%Q)
  /\ ~ positive_amounts (ledger w').
Proof.
  intros Hsort Hmiss Hf Hd Hs Hday Hc Hin Hdesc w'.
  assert (exists w1, add (Object data) w
                     = (Return (Created s c None (str_strip "")), w1))
    as [w1 Hrun].
  { unfold add, add_expense.
    destruct data as [| kv rest]; [discriminate Hmiss |].
    set (data := kv :: rest) in *.
    rewrite Hmiss, Hf, Hd, Hs, Hc. cbn [float_le_0 negb].
    apply valid_category_In in Hin. rewrite Hin, Hdesc. cbn [negb].
    unfold bind at 1. unfold ret at 1. unfold bind at 1.
    rewrite read_data_frame_run. unfold bind, ret.
    rewrite save_data_run. eexists. reflexivity. }
  unfold w'. rewrite Hrun. cbn [fst snd].
  destruct (created_ledger _ _ Hsort Hrun) as [_ [_ [_ [_ [Hval _]]]]].
  specialize (Hval day Hday).
  split; [reflexivity |]. split.
  - eexists. split; [exact Hval |]. repeat split.
  - intros Hpos.
    assert (In (mkRow day (Some c) (float_cell None) (str_strip ""))
               (ledger w1)) as Hr.
    { apply (Permutation_in _ (Permutation_sym Hval)).
      apply in_or_app. right. now left. }
    apply Hpos in Hr. cbn in Hr. apply (Qlt_irrefl 0). exact Hr.
Qed.

(** What [get_json()] raises the route raises; a body that is falsy (null,
    false, 0, an empty string, list or object) is answered "No data
    provided"; a number or [true] ends the request with an exception; and
    a string or a list does too if it holds one of the three field names
    (as a substring, as an item), and is otherwise answered as missing all
    three.  Nothing is changed in any of these cases. *)
Theorem add_expense_body_not_an_object (body : Body) (w : World) :
  (forall e, body = Unparsed e -> add body w = (Raise e, w))
  /\ ((forall e, body <> Unparsed e) -> truthy_body body = false ->
      add body w = (Return NoDataProvided, w))
  /\ (is_object body = false -> truthy_body body = true ->
      match body with
      | Text s =>
          if existsb (fun f => is_substring f s) required
          then exists e, add body w = (Raise e, w)
          else add body w = (Return (MissingFields required), w)
      | Array items =>
          if existsb (fun f => has_item f items) required
          then exists e, add body w = (Raise e, w)
          else add body w = (Return (MissingFields required), w)
      | _ => exists e, add body w = (Raise e, w)
      end).
Proof.
  unfold add, add_expense.
  split; [| split].
  - now intros e ->.
  - intros Hparsed Hfalsy.
    destruct body as [e | | b | x | t | items | data];
      cbn [truthy_body] in Hfalsy.
    + exfalso. now apply (Hparsed e).
    + reflexivity.
    + now rewrite Hfalsy.
    + now rewrite Hfalsy.
    + apply negb_false_iff in Hfalsy. now rewrite Hfalsy.
    + destruct items; [reflexivity | discriminate].
    + destruct data; [reflexivity | discriminate].
  - intros Hobj Htruthy.
    destruct body as [e | | b | x | t | items | data];
      cbn [truthy_body is_object] in Htruthy, Hobj; try discriminate.
    + rewrite Htruthy. now eexists.
    + rewrite Htruthy. now eexists.
    + apply negb_true_iff in Htruthy. rewrite Htruthy.
      destruct (existsb _ required); [now eexists | reflexivity].
    + destruct items as [| v items]; [discriminate |].
      destruct (existsb _ required); [now eexists | reflexivity].
Qed.

(** Past the checks of the amount, a date that is not a string, or a
    description that is there and is not a string, ends the request with an
    exception (and nothing is written). *)
Theorem add_expense_raises_on_untyped_fields
        (data : Dict) (a : option Q) (w : World) :
  missing_fields data = [] ->
  float_of float_of_string (field data "amount") = Some a ->
  float_le_0 a = false ->
  ((forall s, field data "date" <> JStr s) ->
   exists e, add (Object data) w = (Raise e, w))
  /\ (forall s c v,
        field data "date" = JStr s -> strptime_ymd s = true ->
        field data "category" = JStr c -> In c VALID_CATEGORIES ->
        dict_get data "description" = Some v ->
        (forall t, v <> JStr t) ->
        exists e, add (Object data) w = (Raise e, w)).
Proof.
  intros Hmiss Hf Hq.
  assert (data <> []) as Hne by (intros ->; discriminate).
  destruct data as [| kv rest]; [congruence |].
  set (data := kv :: rest) in *.
  split.
  - intros Hdate. unfold add, add_expense. fold data.
    rewrite Hmiss, Hf, Hq.
    destruct (field data "date") as [| b | q | s | e];
      try (eexists; reflexivity).
    exfalso. now apply (Hdate s).
  - intros s c v Hd Hs Hc Hin Hv Hnot. unfold add, add_expense. fold data.
    rewrite Hmiss, Hf, Hq, Hd, Hs, Hc.
    apply valid_category_In in Hin. rewrite Hin, Hv. cbn [negb].
    destruct v as [| b | q | t | e]; try (eexists; reflexivity).
    exfalso. now apply (Hnot t).
Qed.

End Handlers.

Lemma add_expense_rejection_free_lunch :
  snd (add_sample free_lunch (world_of true eight_weeks))
  = world_of true eight_weeks.
Proof.
  apply (@add_expense_rejection_changes_nothing
           insertion_sort no_float any_date march_first no_strip
           free_lunch (world_of true eight_weeks) _
           (fst (add_sample free_lunch (world_of true eight_weeks)))).
  - vm_compute. reflexivity.
  - intros s c a d. vm_compute. discriminate.
Defined.

Lemma add_expense_free_lunch_is_missing :
  exists missing,
    add_sample free_lunch (world_of true [])
    = (Return (MissingFields missing), world_of true [])
    /\ In "amount"%string missing.
Proof.
  apply (@add_expense_falsy_field_is_missing
           insertion_sort no_float any_date march_first no_strip
           free_lunch_data "amount" (world_of true [])).
  - discriminate.
  - simpl. tauto.
  - right. exists (JNum (Some 0%Q)). split; reflexivity.
Defined.

Lemma add_expense_lunch_is_stored :
  by_date (ledger (snd (add_sample lunch (world_of true eight_weeks)))).
Proof.
  refine (proj1 (proj2 (proj2 (proj2
            (@add_expense_created_is_stored
               insertion_sort no_float any_date march_first no_strip
               lunch (world_of true eight_weeks)
               (snd (add_sample lunch (world_of true eight_weeks)))
               "2024-03-01" "Food" "lunch" (Some (25 # 2)%Q)
               insertion_sort_sorts _))))).
  vm_compute. reflexivity.
Defined.

Lemma add_expense_lunch_replaces_unreadable_file :
  exists text,
    expenses_csv (snd (add_sample lunch unreadable_world))
    = Table COLUMNS
            [mkCsvRow (Value (days_from_civil 2024 3 1)) (Some "Food"%string)
                      (float_cell (Some (25 # 2)%Q)) text].
Proof.
  apply (@add_expense_replaces_unaccepted_file
           insertion_sort no_float any_date march_first no_strip
           lunch unreadable_world _ "2024-03-01" "Food" "lunch"
           (Some (25 # 2)%Q) (days_from_civil 2024 3 1)
           insertion_sort_sorts).
  - vm_compute. reflexivity.
  - reflexivity.
  - right. left. exists "bad"%string. reflexivity.
Defined.

Lemma add_expense_lunch_adds_a_week :
  (distinct_weeks (ledger (snd (add_sample lunch (world_of true three_weeks))))
   <= distinct_weeks (ledger (world_of true three_weeks)) + 1)%nat.
Proof.
  refine (proj2 (proj1
            (@add_expense_adds_at_most_one_week
               insertion_sort no_float any_date march_first no_strip
               lunch (world_of true three_weeks)
               (snd (add_sample lunch (world_of true three_weeks)))
               "2024-03-01" "Food" "lunch" (Some (25 # 2)%Q)
               insertion_sort_sorts _))).
  vm_compute. reflexivity.
Defined.

Lemma add_expense_nan_lunch_is_created :
  fst (add_sample nan_lunch (world_of true eight_weeks))
  = Return (Created "2024-03-01" "Food" None "").
Proof.
  refine (proj1
            (@add_expense_accepts_nan_amount
               insertion_sort no_float any_date march_first no_strip
               nan_lunch_data "2024-03-01" "Food" (days_from_civil 2024 3 1)
               (world_of true eight_weeks)
               insertion_sort_sorts eq_refl eq_refl eq_refl eq_refl eq_refl
               eq_refl _ eq_refl)).
  simpl. tauto.
Defined.

Lemma add_expense_text_body_is_missing_all :
  add_sample (Text "hello") (world_of true eight_weeks)
  = (Return (MissingFields required), world_of true eight_weeks).
Proof.
  exact (proj2 (proj2
           (@add_expense_body_not_an_object
              insertion_sort no_float any_date march_first no_strip
              (Text "hello") (world_of true eight_weeks)))
           eq_refl eq_refl).
Defined.

Lemma add_expense_numbered_lunch_raises :
  exists e,
    add_sample numbered_lunch (world_of true [])
    = (Raise e, world_of true []).
Proof.
  refine (proj1
            (@add_expense_raises_on_untyped_fields
               insertion_sort no_float any_date march_first no_strip
               numbered_lunch_data (Some (25 # 2)%Q) (world_of true [])
               eq_refl eq_refl eq_refl) _).
  intros s. discriminate.
Defined.

End RouteFacts.

(* ================================================================== *)
(** ** Deleting and clearing *)
(* ================================================================== *)

Module DeleteFacts.

Import Num NumFacts Calendar Pandas App Ledger GroupFacts Run Gates.
Import Store Routes Book StoreFacts Samples.

(** *** Labels *)

Lemma labelled_from_app (start : nat) (a b : list CsvRow) :
  labelled_from start (a ++ b)
  = labelled_from start a ++ labelled_from (start + List.length a) b.
Proof.
  revert start. induction a as [| r a IH]; intros start.
  - simpl. now rewrite Nat.add_0_r.
  - change ((r :: a) ++ b) with (r :: (a ++ b)).
    rewrite !labelled_from_cons, IH, <- app_assoc.
    now replace (S start + List.length a)%nat
      with (start + List.length (r :: a))%nat by (simpl; lia).
Qed.

Lemma labelled_from_labels (start : nat) (rows : list CsvRow) (i : nat)
      (r : Row) :
  In (i, r) (labelled_from start rows) ->
  (start <= i < start + List.length rows)%nat.
Proof.
  revert start. induction rows as [| x rows IH]; intros start Hin.
  - destruct Hin.
  - rewrite labelled_from_cons in Hin. apply in_app_or in Hin.
    destruct Hin as [Hin | Hin].
    + destruct (csv_date x); [| destruct Hin].
      destruct Hin as [E | []]. inversion E. simpl. lia.
    + apply IH in Hin. simpl. lia.
Qed.

Lemma filter_other_labels (index : nat) (l : list (nat * Row)) :
  (forall i r, In (i, r) l -> i <> index) ->
  filter (fun ir => negb (fst ir =? index)%nat) l = l
  /\ existsb (fun ir => (fst ir =? index)%nat) l = false.
Proof.
  induction l as [| [i r] l IH]; intros Hall; [now split |].
  assert (i <> index) as Hi by (apply (Hall i r); now left).
  destruct IH as [IHf IHe]; [intros j x Hx; apply (Hall j x); now right |].
  simpl. apply Nat.eqb_neq in Hi. rewrite Hi. simpl.
  now rewrite IHf, IHe.
Qed.

(** The frame of a table cut at a line. *)
Lemma labelled_split (a b : list CsvRow) (r : CsvRow) :
  let index := List.length a in
  labelled_dropna (a ++ r :: b)
  = labelled_from 0 a
    ++ match csv_date r with
       | Value d => [(index, mkRow d (csv_category r) (csv_amount r)
                                   (csv_description r))]
       | Junk _ => []
       end
    ++ labelled_from (S index) b.
Proof.
  intros index. unfold labelled_dropna.
  now rewrite labelled_from_app, labelled_from_cons.
Qed.

Lemma labels_before (a : list CsvRow) (i : nat) (r : Row) :
  In (i, r) (labelled_from 0 a) -> i <> List.length a.
Proof. intros H. apply labelled_from_labels in H. lia. Qed.

Lemma labels_after (a b : list CsvRow) (i : nat) (r : Row) :
  In (i, r) (labelled_from (S (List.length a)) b) -> i <> List.length a.
Proof. intros H. apply labelled_from_labels in H. lia. Qed.

Lemma dropna_length (rows : list CsvRow) :
  List.length (to_datetime_dropna rows)
  = (List.length rows
     - List.length (filter (fun r => negb (has_date r)) rows))%nat.
Proof.
  rewrite <- (length_map to_csv_row), to_csv_row_dropna.
  pose proof (filter_length has_date rows). lia.
Qed.

Lemma without_middle (A : Type) (x z : list A) (y : A) :
  without (List.length x) (x ++ y :: z) = x ++ z.
Proof.
  unfold without. induction x as [| h x IH]; [reflexivity |].
  simpl. f_equal. exact IH.
Qed.

Section Handlers.

Variable sort_values : list CsvRow -> list CsvRow.

Lemma delete_expense_run (index : nat) (w : World) :
  delete_expense sort_values index w
  = let df := frame_of (expenses_csv w) in
    if (List.length (frame_rows df) <=? index)%nat then
      (Return IndexOutOfBounds, after_read w)
    else if existsb (fun ir => (fst ir =? index)%nat) (frame_rows df) then
      (Return Deleted,
       mkWorld (FORECAST_AVAILABLE w)
               (Table (frame_columns df)
                      (sort_values
                         (filter has_date
                            (map (fun ir => to_csv_row (snd ir))
                                 (filter (fun ir => negb (fst ir =? index)%nat)
                                         (frame_rows df))))))
               (stdout (after_read w)) (model_calls w))
    else (Return (DeleteFailed index), after_read w).
Proof.
  unfold delete_expense, bind. rewrite read_data_frame_run. cbv zeta.
  destruct (List.length _ <=? index)%nat; [reflexivity |].
  destruct (existsb _ _); [| reflexivity].
  rewrite save_data_run. unfold ret.
  now rewrite after_read_flag, after_read_calls.
Qed.

Lemma frame_rows_length (w : World) :
  List.length (frame_rows (frame_of (expenses_csv w)))
  = List.length (ledger w).
Proof. now rewrite <- frame_rows_ledger, length_map. Qed.

(** Deleting the line at a position of the file that has a date. *)
Lemma delete_dated_line (columns : list string) (a b : list CsvRow)
      (r : CsvRow) (w : World) :
  sorts_by_date sort_values ->
  expenses_csv w = Table columns (a ++ r :: b) ->
  issubset COLUMNS columns = true ->
  has_date r = true ->
  (List.length a < List.length (ledger w))%nat ->
  let k := List.length (to_datetime_dropna a) in
  let w' := snd (delete_expense sort_values (List.length a) w) in
  fst (delete_expense sort_values (List.length a) w) = Return Deleted
  /\ Permutation (ledger w') (without k (ledger w))
  /\ by_date (ledger w')
  /\ ledger w = to_datetime_dropna a ++ to_datetime_dropna [r]
                ++ to_datetime_dropna b.
Proof.
  intros Hsort Hcsv Hcols Hr Hlt k w'.
  assert (ledger w = to_datetime_dropna a ++ to_datetime_dropna [r]
                     ++ to_datetime_dropna b) as Hl.
  { unfold ledger, transactions. rewrite Hcsv, Hcols.
    change (r :: b) with ([r] ++ b). now rewrite !dropna_app. }
  unfold w'. rewrite delete_expense_run. cbv zeta.
  rewrite frame_rows_length.
  apply Nat.leb_gt in Hlt. rewrite Hlt.
  unfold frame_of. rewrite Hcsv, Hcols. cbn [frame_rows frame_columns].
  rewrite labelled_split.
  unfold has_date in Hr. destruct (csv_date r) as [d |] eqn:Ed;
    [| discriminate].
  destruct (@filter_other_labels (List.length a) (labelled_from 0 a)
              (@labels_before a)) as [Fa Ea].
  destruct (@filter_other_labels (List.length a)
              (labelled_from (S (List.length a)) b) (@labels_after a b))
    as [Fb Eb].
  rewrite !existsb_app, !filter_app, Fa, Fb. cbn [existsb filter fst].
  rewrite Nat.eqb_refl, orb_true_r. cbn [negb orb app fst snd].
  split; [reflexivity |].
  rewrite map_app, <- !(map_map snd to_csv_row), !labelled_rows_from.
  rewrite <- map_app.
  destruct (@written_ledger sort_values columns
              (to_datetime_dropna a ++ to_datetime_dropna b) []
              Hsort Hcols) as [Hperm Hby].
  change (to_datetime_dropna []) with (@nil Row) in Hperm.
  rewrite !app_nil_r in Hperm, Hby.
  unfold ledger at 1 3. cbn [expenses_csv snd].
  split; [| split; [exact Hby | exact Hl]].
  rewrite Hl. unfold k.
  replace (to_datetime_dropna [r])
    with [mkRow d (csv_category r) (csv_amount r) (csv_description r)]
    by (unfold to_datetime_dropna; simpl; now rewrite Ed).
  cbn [app]. rewrite without_middle.
  now rewrite app_nil_r in Hperm.
Qed.

Lemma firstn_length_app (A : Type) (a l : list A) :
  firstn (List.length a) (a ++ l) = a.
Proof. induction a as [| h a IH]; [reflexivity |]. simpl. now rewrite IH. Qed.

(** A refused deletion, for an index past the end of the listing or for the
    position of a line without a date, leaves the file as it is; the route
    never ends with an exception. *)
Theorem delete_expense_refusal_keeps_file (index : nat) (w : World) :
  ((List.length (ledger w) <= index)%nat ->
   delete_expense sort_values index w
   = (Return IndexOutOfBounds, after_read w))
  /\ (exists r, fst (delete_expense sort_values index w) = Return r)
  /\ (fst (delete_expense sort_values index w) <> Return Deleted ->
      expenses_csv (snd (delete_expense sort_values index w))
      = expenses_csv w).
Proof.
  rewrite delete_expense_run. cbv zeta. rewrite frame_rows_length.
  split; [| split].
  - intros Hle. apply Nat.leb_le in Hle. now rewrite Hle.
  - destruct (_ <=? _)%nat; [now eexists |].
    destruct (existsb _ _); now eexists.
  - destruct (_ <=? _)%nat; [intros _; apply after_read_csv |].
    destruct (existsb _ _); [intros H; now contradiction H |].
    intros _. apply after_read_csv.
Qed.

(** The index counts the lines of the file, not the entries of the listing:
    for an index within the listing the line at that position of the file
    is the one removed, which is the entry of the listing as many places
    earlier as there are lines without a date before it; and where that
    line has no date itself nothing is removed and the answer is a 500. *)
Theorem delete_expense_goes_by_file_position
        (columns : list string) (rows : list CsvRow) (r : CsvRow)
        (index : nat) (w : World) :
  sorts_by_date sort_values ->
  expenses_csv w = Table columns rows ->
  issubset COLUMNS columns = true ->
  (index < List.length (ledger w))%nat ->
  nth_error rows index = Some r ->
  let w' := snd (delete_expense sort_values index w) in
  (has_date r = true ->
   fst (delete_expense sort_values index w) = Return Deleted
   /\ Permutation (ledger w')
                  (without (index - undated_before rows index) (ledger w))
   /\ by_date (ledger w'))
  /\ (has_date r = false ->
      delete_expense sort_values index w = (Return (DeleteFailed index), w)).
Proof.
  intros Hsort Hcsv Hcols Hlt Hnth w'.
  apply nth_error_split in Hnth. destruct Hnth as [a [b [-> Hlen]]].
  subst index. split; intros Hr.
  - destruct (@delete_dated_line columns a b r w Hsort Hcsv Hcols Hr Hlt)
      as [Hd [Hperm [Hby _]]].
    split; [exact Hd |]. split; [| exact Hby].
    unfold undated_before. rewrite firstn_length_app.
    rewrite dropna_length in Hperm.
    exact Hperm.
  - rewrite delete_expense_run. cbv zeta. rewrite frame_rows_length.
    apply Nat.leb_gt in Hlt. rewrite Hlt.
    unfold frame_of. rewrite Hcsv, Hcols. cbn [frame_rows].
    rewrite labelled_split.
    unfold has_date in Hr. destruct (csv_date r); [discriminate |].
    rewrite !existsb_app.
    destruct (@filter_other_labels (List.length a) (labelled_from 0 a)
                (@labels_before a)) as [_ ->].
    destruct (@filter_other_labels (List.length a)
                (labelled_from (S (List.length a)) b) (@labels_after a b))
      as [_ ->].
    cbn [existsb orb]. unfold after_read. now rewrite Hcsv.
Qed.

(** In a file whose lines all have a date, as [save_data] leaves it, the
    index is the position in the listing: deleting an index within it
    succeeds and removes that entry, the others staying, in ascending order
    of date. *)
Theorem delete_expense_removes_listed_entry
        (columns : list string) (rows : list CsvRow)
        (index : nat) (w : World) :
  sorts_by_date sort_values ->
  expenses_csv w = Table columns rows ->
  issubset COLUMNS columns = true ->
  Forall (fun r => has_date r = true) rows ->
  (index < List.length rows)%nat ->
  let w' := snd (delete_expense sort_values index w) in
  fst (delete_expense sort_values index w) = Return Deleted
  /\ Permutation (ledger w') (without index (ledger w))
  /\ by_date (ledger w')
  /\ List.length (ledger w') = (List.length (ledger w) - 1)%nat.
Proof.
  intros Hsort Hcsv Hcols Hall Hlt w'.
  assert (List.length (ledger w) = List.length rows) as Hlen.
  { unfold ledger, transactions. rewrite Hcsv, Hcols.
    rewrite <- (length_map to_csv_row), to_csv_row_dropna.
    now rewrite filter_all. }
  destruct (nth_error rows index) as [r |] eqn:Hnth;
    [| apply nth_error_None in Hnth; lia].
  assert (has_date r = true) as Hr.
  { rewrite Forall_forall in Hall. apply Hall.
    now apply nth_error_In with index. }
  apply nth_error_split in Hnth. destruct Hnth as [a [b [-> Ha]]].
  subst index.
  assert (List.length a < List.length (ledger w))%nat as Hlt' by lia.
  destruct (@delete_dated_line columns a b r w Hsort Hcsv Hcols Hr Hlt')
    as [Hd [Hperm [Hby Hl]]].
  assert (List.length (to_datetime_dropna a) = List.length a) as Hk.
  { rewrite <- (length_map to_csv_row), to_csv_row_dropna.
    rewrite filter_all; [reflexivity |].
    apply Forall_app in Hall. apply Hall. }
  rewrite Hk in Hperm.
  split; [exact Hd |]. split; [exact Hperm |]. split; [exact Hby |].
  unfold w'. rewrite (Permutation_length Hperm). unfold without.
  rewrite length_app, length_firstn, length_skipn. lia.
Qed.

Lemma clear_all_expenses_run (body : Body) (w : World) :
  sorts_by_date sort_values ->
  clear_all_expenses sort_values body w
  = match body with
    | Unparsed e => (Raise e, w)
    | _ =>
        if negb (is_object body) && truthy_body body
        then (Raise (Exception "AttributeError: get"), w)
        else if confirms body
             then (Return Cleared,
                   mkWorld (FORECAST_AVAILABLE w) (Table COLUMNS [])
                           (stdout w) (model_calls w))
             else (Return ConfirmationRequired, w)
    end.
Proof.
  intros Hsort.
  assert (sort_values [] = []) as Hnil.
  { destruct (Hsort []) as [Hperm _]. now apply Permutation_nil in Hperm. }
  assert (forall data,
            (let confirm := match dict_get data "confirm" with
                            | Some v => truthy v
                            | None => false
                            end in
             if negb confirm then ret ConfirmationRequired
             else bind (save_data sort_values COLUMNS [])
                       (fun _ => ret Cleared)) w
            = if match dict_get data "confirm" with
                 | Some v => truthy v
                 | None => false
                 end
              then (Return Cleared,
                    mkWorld (FORECAST_AVAILABLE w) (Table COLUMNS [])
                            (stdout w) (model_calls w))
              else (Return ConfirmationRequired, w)) as Hgo.
  { intros data. cbv zeta.
    destruct (match dict_get data "confirm" with
              | Some v => truthy v
              | None => false
              end); cbn [negb]; [| reflexivity].
    unfold bind. rewrite save_data_run. cbn [filter]. now rewrite Hnil. }
  unfold clear_all_expenses.
  destruct body as [e | | b | x | t | items | data]; [reflexivity | ..];
    unfold bind at 1;
    cbn [is_object truthy_body confirms negb andb].
  - apply (Hgo []).
  - destruct b; [reflexivity | apply (Hgo [])].
  - destruct (truthy (JNum x)); [reflexivity | apply (Hgo [])].
  - destruct (String.eqb t ""); cbn [negb]; [apply (Hgo []) | reflexivity].
  - destruct items; [apply (Hgo []) | reflexivity].
  - unfold ret at 1. apply (Hgo data).
Qed.

(** Where [get_json()] raises, or returns something truthy that is not an
    object (a number, a string, a list), the route ends with an exception
    and nothing is cleared.  Otherwise, without a truthy [confirm] it
    answers that a confirmation is required and changes nothing; and with
    one the file becomes the empty table of the four columns, and the
    forecast is then refused for lack of data, with no week at all. *)
Theorem clear_all_expenses_empties_the_ledger (body : Body) (w : World) :
  sorts_by_date sort_values ->
  let run := clear_all_expenses sort_values body w in
  (forall e, body = Unparsed e -> run = (Raise e, w))
  /\ (is_object body = false -> truthy_body body = true ->
      exists e, run = (Raise e, w))
  /\ ((forall e, body <> Unparsed e) ->
      (is_object body = true \/ truthy_body body = false) ->
      confirms body = false ->
      run = (Return ConfirmationRequired, w))
  /\ (confirms body = true ->
      fst run = Return Cleared
      /\ expenses_csv (snd run) = Table COLUMNS []
      /\ ledger (snd run) = []
      /\ forall holt_winters,
           FORECAST_AVAILABLE w = true ->
           fst (get_forecast holt_winters (snd run))
           = Return (InsufficientData 0 8)).
Proof.
  intros Hsort run. unfold run. rewrite (clear_all_expenses_run _ _ Hsort).
  split; [| split; [| split]].
  - now intros e ->.
  - intros Hobj Htruthy.
    destruct body as [e | | b | x | t | items | data];
      try discriminate; cbn [is_object negb andb];
      cbn [is_object] in Hobj; rewrite Htruthy; now eexists.
  - intros Hparsed Hdict Hconf.
    destruct body as [e | | b | x | t | items | data];
      [exfalso; now apply (Hparsed e) | ..];
      rewrite Hconf;
      (destruct Hdict as [Hobj | Hfalsy];
       [try discriminate Hobj; reflexivity
       | rewrite Hfalsy; now rewrite andb_false_r]).
  - intros Hconf.
    destruct body as [e | | b | x | t | items | data]; try discriminate.
    cbn [is_object negb andb]. rewrite Hconf. cbn [fst snd expenses_csv].
    repeat split.
    intros holt_winters Hav.
    rewrite get_forecast_insufficient;
      [reflexivity | exact Hav | cbv; lia].
Qed.

End Handlers.

Lemma delete_expense_undated_line_fails :
  delete_expense insertion_sort 1 (world_of true with_undated_line)
  = (Return (DeleteFailed 1), world_of true with_undated_line).
Proof.
  refine (proj2
            (@delete_expense_goes_by_file_position
               insertion_sort COLUMNS with_undated_line
               (mkCsvRow (Junk "soon") (Some "Food"%string) (Value 5%Q) "")
               1 (world_of true with_undated_line)
               insertion_sort_sorts eq_refl eq_refl _ eq_refl) eq_refl).
  cbv. lia.
Defined.

Lemma delete_expense_fourth_of_eight :
  fst (delete_expense insertion_sort 3 (world_of true eight_weeks))
  = Return Deleted.
Proof.
  refine (proj1
            (@delete_expense_removes_listed_entry
               insertion_sort COLUMNS eight_weeks 3
               (world_of true eight_weeks)
               insertion_sort_sorts eq_refl eq_refl _ _)).
  - repeat constructor.
  - cbv. lia.
Defined.

Lemma clear_all_expenses_confirmed :
  ledger (snd (clear_all_expenses insertion_sort confirmed
                                  (world_of true eight_weeks))) = [].
Proof.
  refine (proj1 (proj2 (proj2 (proj2 (proj2 (proj2
            (@clear_all_expenses_empties_the_ledger
               insertion_sort confirmed (world_of true eight_weeks)
               insertion_sort_sorts))) eq_refl)))).
Defined.

End DeleteFacts.

(* ================================================================== *)
(** ** The series, the statistics and the answers of the forecast *)
(* ================================================================== *)

Module LedgerFacts.

Import Num NumFacts Calendar Pandas App Ledger GroupFacts Run Gates Success.
Import Store Routes Book StoreFacts Samples.

Local Open Scope Q_scope.

(** *** Positive amounts *)

Lemma filtered_total_nonneg (df : DataFrame) (p : Row -> bool) :
  positive_amounts df ->
  0 <= qsum (map (fun r => to_numeric_fillna0 (amount r)) (filter p df)).
Proof.
  induction df as [| r df IH]; intros Hpos; simpl; [lra |].
  assert (0 <= qsum (map (fun r => to_numeric_fillna0 (amount r))
                         (filter p df))) as Hl
      by (apply IH; intros x Hx; apply Hpos; now right).
  destruct (p r); simpl; [| exact Hl].
  assert (0 < to_numeric_fillna0 (amount r)) by (apply Hpos; now left).
  lra.
Qed.

Lemma filtered_total_pos (df : DataFrame) (p : Row -> bool) (r : Row) :
  positive_amounts df -> In r df -> p r = true ->
  0 < qsum (map (fun r => to_numeric_fillna0 (amount r)) (filter p df)).
Proof.
  induction df as [| x df IH]; intros Hpos Hin Hp; [destruct Hin |].
  assert (positive_amounts df) as Hpos'
      by (intros y Hy; apply Hpos; now right).
  pose proof (filtered_total_nonneg p Hpos') as Hnn.
  simpl. destruct Hin as [-> | Hin].
  - rewrite Hp. simpl.
    assert (0 < to_numeric_fillna0 (amount r)) by (apply Hpos; now left).
    lra.
  - specialize (IH Hpos' Hin Hp).
    destruct (p x); simpl; [| exact IH].
    assert (0 < to_numeric_fillna0 (amount x)) by (apply Hpos; now left).
    lra.
Qed.

Lemma filter_none (A : Type) (p : A -> bool) (l : list A) :
  (forall x, In x l -> p x = false) -> filter p l = [].
Proof.
  induction l as [| x l IH]; intros Hall; [reflexivity |].
  simpl. rewrite (Hall x (or_introl eq_refl)).
  apply IH. intros y Hy. apply Hall. now right.
Qed.

Lemma no_zero_week (df : DataFrame) :
  positive_amounts df -> zero_weeks df = 0%nat.
Proof.
  intros Hpos. unfold zero_weeks.
  replace (filter (fun k => Qeq_bool (week_total df k) 0)
                  (nodup Z.eq_dec (map week_of df)))
    with (@nil Z); [reflexivity |].
  symmetry. apply filter_none.
  intros k Hk. apply nodup_In, in_map_iff in Hk.
  destruct Hk as [r [<- Hr]].
  unfold is_zero. apply not_true_is_false. intros E.
  apply Qeq_bool_iff in E.
  assert (0 < week_total df (week_of r)) as Hw.
  { unfold week_total.
    apply filtered_total_pos with r; [exact Hpos | exact Hr |].
    apply Z.eqb_refl. }
  lra.
Qed.

(** Where every amount of the ledger is positive, no week sums to zero and
    the forecast is never refused for the quality of the data. *)
Theorem positive_ledger_passes_quality_gate
        (holt_winters : Series -> nat -> FitOutcome) (w : World) :
  positive_amounts (ledger w) ->
  count_zero (weekly w) = 0%nat
  /\ forall pct, fst (get_forecast holt_winters w)
                 <> Return (DataQualityIssue pct).
Proof.
  intros Hpos.
  assert (count_zero (weekly w) = 0%nat) as Hz
      by (unfold weekly; rewrite count_zero_weekly; now apply no_zero_week).
  split; [exact Hz |]. intros pct.
  destruct (FORECAST_AVAILABLE w) eqn:Hav.
  2:{ rewrite get_forecast_unavailable by exact Hav. discriminate. }
  destruct (Nat.lt_ge_cases (List.length (weekly w)) 8) as [Hlt | Hge].
  { rewrite get_forecast_insufficient by assumption. discriminate. }
  assert (Qle_bool (zero_pct (weekly w)) (1 # 2) = true) as Hq
      by (apply zero_pct_le_half; lia).
  rewrite get_forecast_fit by assumption.
  destruct (holt_winters (weekly w) _) as [predict | [d | m]];
    simpl; discriminate.
Qed.

(** *** The weekly series *)

Lemma sorted_lt (l : list Z) :
  StronglySorted (lt_key Z.compare) l -> StronglySorted Z.lt l.
Proof.
  induction 1 as [| h t Hs IH Hall]; constructor; [exact IH |].
  rewrite Forall_forall in *. intros x Hx.
  specialize (Hall x Hx). unfold lt_key in Hall.
  now apply Z.compare_lt_iff.
Qed.

Lemma weekly_values (df : DataFrame) :
  dropna (map snd (weekly_series (numeric df)))
  = map snd (groupby_sum Z.compare (by_week df)).
Proof.
  unfold weekly_series. fold (by_week df).
  rewrite map_map. cbn [snd].
  induction (groupby_sum Z.compare (by_week df)) as [| e l IH];
    [reflexivity |].
  simpl. now rewrite IH.
Qed.

Lemma by_week_values (df : DataFrame) :
  map snd (by_week df) = map (fun r => to_numeric_fillna0 (amount r)) df.
Proof. unfold by_week, numeric. now rewrite !map_map. Qed.

Lemma series_total_weekly (df : DataFrame) :
  series_total (weekly_series (numeric df))
  == qsum (map (fun r => to_numeric_fillna0 (amount r)) df).
Proof.
  unfold series_total. rewrite weekly_values, <- by_week_values.
  apply (@groupby_sum_total _ Z.compare Z_cmp_eq Z_cmp_antisym Z_cmp_trans).
Qed.

(** The weekly series has one entry for each week that has a transaction,
    named by its Monday, in strictly ascending order, each holding the total
    of its week; the entries add up to the total of the ledger. *)
Theorem weekly_series_structure (w : World) :
  fst (prepare_data_for_forecast Weekly w) = Return (weekly w)
  /\ StronglySorted Z.lt (map fst (weekly w))
  /\ (forall k, In k (map fst (weekly w))
                <-> exists r, In r (ledger w) /\ week_of r = k)
  /\ (forall k, In k (map fst (weekly w)) -> weekday k = 0%Z)
  /\ (forall k v, In (k, v) (weekly w)
                  -> v = Some (week_total (ledger w) k))
  /\ series_total (weekly w)
     == qsum (map (fun r => to_numeric_fillna0 (amount r)) (ledger w)).
Proof.
  assert (forall k, In k (map fst (weekly w))
                    <-> exists r, In r (ledger w) /\ week_of r = k) as Hin.
  { intros k. unfold weekly. rewrite weekly_series_index.
    rewrite (@unique_sorted_In _ Z.compare Z_cmp_eq), in_map_iff.
    split; intros [r [H1 H2]]; exists r; now split. }
  split; [now rewrite prepare_weekly_run |].
  split; [| split; [exact Hin | split; [| split]]].
  - unfold weekly. rewrite weekly_series_index. apply sorted_lt.
    apply (@unique_sorted_sorted _ Z.compare Z_cmp_eq Z_cmp_antisym
                                 Z_cmp_trans).
  - intros k Hk. apply Hin in Hk. destruct Hk as [r [_ <-]].
    apply weekday_week_start.
  - intros k v Hkv. now apply weekly_series_entry in Hkv.
  - apply series_total_weekly.
Qed.

(** *** The statistics *)

Lemma categorised_amounts (df : DataFrame) :
  (forall r, In r df -> category r <> None) ->
  map snd (category_amounts df)
  = map (fun r => to_numeric_fillna0 (amount r)) df.
Proof.
  unfold category_amounts.
  induction df as [| r df IH]; intros Hall; [reflexivity |].
  simpl. rewrite map_app, IH by (intros x Hx; apply Hall; now right).
  destruct (category r) eqn:E; [reflexivity |].
  exfalso. apply (Hall r); [now left | exact E].
Qed.

Lemma rounded_to_wd (unit x y a : Q) :
  x == y -> rounded_to unit x a -> rounded_to unit y a.
Proof.
  intros E [Hk Hnear]. split; [exact Hk |]. now rewrite <- E.
Qed.

(** Over a ledger of ordinary amounts (none negative, below 10^9 together),
    when the statistics are answered the file is as it was, the count is
    the number of dated transactions, and the total is the sum of the
    weekly series the forecast is fitted on, rounded to two decimals (a
    whole number of cents at most 0.005 away from it), and, where every
    transaction has a category, the so rounded sum of the category totals
    behind the pie; the average is the total of the amounts over the count,
    rounded likewise. *)
Theorem get_stats_agrees_with_the_series
        (raw_idxmax : DataFrame -> TopCategory)
        (w w' : World) (s : Stats) :
  get_stats raw_idxmax w = (Return s, w') ->
  ordinary_amounts (ledger w) ->
  w' = after_read w
  /\ stats_count s = List.length (ledger w)
  /\ rounded_to (1 # 100) (series_total (weekly w)) (stats_total s)
  /\ ((forall r, In r (ledger w) -> category r <> None) ->
      rounded_to (1 # 100) (total_history (ledger w)) (stats_total s))
  /\ (ledger w <> [] ->
      rounded_to (1 # 100)
        (qsum (map (fun r => to_numeric_fillna0 (amount r)) (ledger w))
         / inject_Z (Z.of_nat (stats_count s)))
        (stats_average s)).
Proof.
  intros Hrun _. revert Hrun.
  unfold get_stats, bind. rewrite read_data_run.
  assert (qsum (map (fun r => to_numeric_fillna0 (amount r)) (ledger w))
          == series_total (weekly w)) as Hseries
      by (symmetry; apply series_total_weekly).
  assert ((forall r, In r (ledger w) -> category r <> None) ->
          qsum (map (fun r => to_numeric_fillna0 (amount r)) (ledger w))
          == total_history (ledger w)) as Hcat.
  { intros Hall. unfold total_history, cat_totals.
    rewrite (@groupby_sum_total _ String.compare string_cmp_eq
                                String.compare_antisym string_cmp_trans).
    now rewrite categorised_amounts. }
  destruct (ledger w) as [| r df] eqn:El.
  - intros H. inversion H; subst. cbn [stats_count stats_total List.length].
    split; [reflexivity |]. split; [reflexivity |].
    split; [| split; [| congruence]].
    + apply (rounded_to_wd Hseries). cbn [map qsum fold_right].
      split; [exists 0%Z; reflexivity | vm_compute; discriminate].
    + intros Hall. apply (rounded_to_wd (Hcat Hall)).
      cbn [map qsum fold_right].
      split; [exists 0%Z; reflexivity | vm_compute; discriminate].
  - destruct (raw_idxmax (r :: df)) as [label | | e];
      intros H; inversion H; subst;
      cbn [stats_count stats_total stats_average];
      (split; [reflexivity |]); (split; [reflexivity |]);
      (split; [| split]).
    + apply (rounded_to_wd Hseries). apply py_round_rounded_cent.
    + intros Hall. apply (rounded_to_wd (Hcat Hall)).
      apply py_round_rounded_cent.
    + intros _. rewrite length_map. apply py_round_rounded_cent.
    + apply (rounded_to_wd Hseries). apply py_round_rounded_cent.
    + intros Hall. apply (rounded_to_wd (Hcat Hall)).
      apply py_round_rounded_cent.
    + intros _. rewrite length_map. apply py_round_rounded_cent.
Qed.

(** *** The answers of the forecast *)

(** Whatever statsmodels does, the forecast route answers and does not end
    with an exception; a fitting failure is answered only when the fit
    raised, with its own message, as a 400 for a [ValueError] and as a 500
    otherwise. *)
Theorem get_forecast_never_raises
        (holt_winters : Series -> nat -> FitOutcome) (w : World) :
  (exists r, fst (get_forecast holt_winters w) = Return r)
  /\ (forall details,
        fst (get_forecast holt_winters w)
        = Return (ModelFittingFailed details) ->
        holt_winters (weekly w) (Nat.min 4 (List.length (weekly w) / 2))
        = FitRaises (ValueError details))
  /\ (forall message,
        fst (get_forecast holt_winters w)
        = Return (ForecastingFailed message) ->
        holt_winters (weekly w) (Nat.min 4 (List.length (weekly w) / 2))
        = FitRaises (Exception message)
        /\ stdout (snd (get_forecast holt_winters w))
           = stdout (after_read w)
             ++ [("Forecast Error: " ++ message)%string]).
Proof.
  destruct (FORECAST_AVAILABLE w) eqn:Hav.
  2:{ rewrite get_forecast_unavailable by exact Hav.
      split; [now eexists | split; intros x H; discriminate H]. }
  destruct (Nat.lt_ge_cases (List.length (weekly w)) 8) as [Hlt | Hge].
  { rewrite get_forecast_insufficient by assumption.
    split; [now eexists | split; intros x H; discriminate H]. }
  destruct (Qle_bool (zero_pct (weekly w)) (1 # 2)) eqn:Hq.
  2:{ rewrite get_forecast_quality by assumption.
      split; [now eexists | split; intros x H; discriminate H]. }
  rewrite get_forecast_fit by assumption.
  destruct (holt_winters (weekly w) _) as [predict | [d | m]]; cbn [fst snd].
  - split; [now eexists | split; intros x H; discriminate H].
  - split; [now eexists | split; intros x H; inversion H]. reflexivity.
  - split; [now eexists | split; intros x H; inversion H]. subst.
    split; [reflexivity |].
    unfold with_line, with_call. cbn [stdout]. reflexivity.
Qed.

Lemma eight_weeks_positive :
  positive_amounts (ledger (world_of true eight_weeks)).
Proof.
  intros r Hr. vm_compute in Hr.
  repeat (destruct Hr as [<- | Hr]; [reflexivity |]). destruct Hr.
Qed.

Lemma eight_weeks_have_no_zero_week :
  count_zero (weekly (world_of true eight_weeks)) = 0%nat.
Proof.
  exact (proj1 (@positive_ledger_passes_quality_gate
                  linear_model (world_of true eight_weeks)
                  eight_weeks_positive)).
Defined.

Lemma eight_weeks_stats_total :
  rounded_to (1 # 100) (series_total (weekly (world_of true eight_weeks)))
             (stats_total eight_weeks_stats).
Proof.
  refine (proj1 (proj2 (proj2
            (@get_stats_agrees_with_the_series
               no_top (world_of true eight_weeks)
               (snd (get_stats no_top (world_of true eight_weeks)))
               eight_weeks_stats _ eight_weeks_ordinary)))).
  vm_compute. reflexivity.
Defined.

End LedgerFacts.

(* ================================================================== *)
(** ** Mock data, and what every route keeps *)
(* ================================================================== *)

Module MockFacts.

Import Num NumFacts Calendar Pandas App Ledger GroupFacts Run Gates.
Import Store Routes Book StoreFacts RouteFacts DeleteFacts LedgerFacts Samples.

Local Open Scope Q_scope.

(** *** Rounding keeps a value between two amounts in cents *)

Lemma round_half_even_ge (x : Q) (k : Z) :
  inject_Z k <= x -> (k <= round_half_even x)%Z.
Proof.
  intros H. pose proof (round_half_even_near x) as [Hlo _].
  destruct (Z_le_gt_dec k (round_half_even x)) as [Hle | Hgt]; [exact Hle |].
  exfalso.
  assert (round_half_even x + 1 <= k)%Z as Hz by lia.
  rewrite Zle_Qle, inject_Z_plus in Hz.
  change (inject_Z 1) with 1 in Hz. lra.
Qed.

Lemma round_half_even_le (x : Q) (k : Z) :
  x <= inject_Z k -> (round_half_even x <= k)%Z.
Proof.
  intros H. pose proof (round_half_even_near x) as [_ Hhi].
  destruct (Z_le_gt_dec (round_half_even x) k) as [Hle | Hgt]; [exact Hle |].
  exfalso.
  assert (k + 1 <= round_half_even x)%Z as Hz by lia.
  rewrite Zle_Qle, inject_Z_plus in Hz.
  change (inject_Z 1) with 1 in Hz. lra.
Qed.

Lemma py_round_2_between (x : Q) (lo hi : Z) :
  inject_Z lo <= x -> x <= inject_Z hi ->
  inject_Z lo <= py_round x 2 <= inject_Z hi.
Proof.
  intros Hlo Hhi. unfold py_round. change (pow10 2) with 100%positive.
  assert (lo * 100 <= round_half_even (x * inject_Z 100))%Z as Hl.
  { apply round_half_even_ge. rewrite inject_Z_mult.
    change (inject_Z 100) with 100. lra. }
  assert (round_half_even (x * inject_Z 100) <= hi * 100)%Z as Hh.
  { apply round_half_even_le. rewrite inject_Z_mult.
    change (inject_Z 100) with 100. lra. }
  unfold Qle. simpl. lia.
Qed.

(** *** One turn of the loop *)

Lemma desc_map_length (cat : string) :
  In cat (removelast VALID_CATEGORIES) ->
  List.length (desc_map cat) = 4%nat.
Proof.
  simpl. intros [<- | [<- | [<- | [<- | [<- | [<- | []]]]]]]; reflexivity.
Qed.

Lemma mock_amount_between (base : Q) (offset : Z) (mult : Q) :
  10 <= base -> base <= 100 -> (0 <= offset <= 180)%Z ->
  (mult = 1 \/ mult = 2) ->
  inject_Z 10 <= base * (1 + inject_Z offset * (5 # 10000)) * mult
  /\ base * (1 + inject_Z offset * (5 # 10000)) * mult <= inject_Z 218
  /\ (mult = 2 ->
      inject_Z 20 <= base * (1 + inject_Z offset * (5 # 10000)) * mult).
Proof.
  intros Hb1 Hb2 [Ho1 Ho2] Hm.
  rewrite Zle_Qle in Ho1, Ho2.
  change (inject_Z 0) with 0 in Ho1. change (inject_Z 180) with 180 in Ho2.
  change (inject_Z 10) with 10. change (inject_Z 218) with 218.
  change (inject_Z 20) with 20.
  set (t := 1 + inject_Z offset * (5 # 10000)).
  assert (1 <= t) as Ht1 by (unfold t; lra).
  assert (t <= 109 # 100) as Ht2 by (unfold t; lra).
  assert (10 <= base * t) as Hx1 by nra.
  assert (base * t <= 109) as Hx2 by nra.
  destruct Hm as [-> | ->]; repeat split; try lra.
  intros H. discriminate H.
Qed.

Lemma mock_row_line (today : Z) (d : Draw) :
  valid_draw d -> mock_line today (mock_row today d).
Proof.
  intros [Hoff [Hcat [Hb1 [Hb2 Hdesc]]]].
  unfold mock_row. cbv zeta.
  set (cat := nth (category_index d) (removelast VALID_CATEGORIES) ""%string).
  set (day := (today - 180 + days_offset d)%Z).
  set (mult := if ((5 <=? weekday day)%Z
                   && existsb (String.eqb cat)
                              ["Food"; "Entertainment"]%string)%bool
               then 2 else 1).
  assert (In cat (removelast VALID_CATEGORIES)) as Hin
      by (apply nth_In; exact Hcat).
  assert (mult = 1 \/ mult = 2) as Hm
      by (unfold mult; destruct (_ && _)%bool; [now right | now left]).
  destruct (mock_amount_between Hb1 Hb2 Hoff Hm) as [Hlo [Hhi Hwe]].
  exists day, cat,
    (py_round (base_amount d * (1 + inject_Z (days_offset d) * (5 # 10000))
               * mult) 2).
  cbn [csv_date csv_category csv_amount csv_description].
  split; [reflexivity |]. split; [unfold day; lia |].
  split; [reflexivity |].
  split; [simpl in Hin; simpl; intuition |].
  split.
  { simpl in Hin.
    destruct Hin as [<- | [<- | [<- | [<- | [<- | [<- | []]]]]]];
      discriminate. }
  split; [reflexivity |].
  split; [apply (py_round_2_between Hlo Hhi) |].
  split; [apply (py_round_2_between Hlo Hhi) |].
  split.
  - apply nth_In. now rewrite desc_map_length.
  - intros Hwd Hc.
    assert (mult = 2) as E.
    { unfold mult. apply Z.leb_le in Hwd. rewrite Hwd.
      destruct Hc as [-> | ->]; reflexivity. }
    apply (py_round_2_between (Hwe E) Hhi).
Qed.

Lemma mock_line_dated (today : Z) (r : CsvRow) :
  mock_line today r -> has_date r = true.
Proof.
  intros [day [cat [a [E _]]]]. unfold has_date. now rewrite E.
Qed.

Lemma mock_line_kept (today : Z) (r : CsvRow) :
  mock_line today r -> kept_row r.
Proof.
  intros [day [cat [a [Ed [_ [Ec [Hin [_ [Ea [Hlo _]]]]]]]]]].
  split; [now exists day |]. split; [| now exists cat].
  exists a. split; [exact Ea |].
  change (inject_Z 10) with 10 in Hlo. lra.
Qed.

Section Handlers.

Variable sort_values : list CsvRow -> list CsvRow.

(** Whatever the file held, after the mock data were generated it holds
    500 lines in ascending order of date, each as [mock_line] says, and the
    ledger has 500 transactions. *)
Theorem generate_mock_data_writes_500_lines
        (today : Z) (draw : nat -> Draw) (w : World) :
  sorts_by_date sort_values ->
  (forall i, (i < 500)%nat -> valid_draw (draw i)) ->
  let w' := snd (generate_mock_data sort_values today draw w) in
  exists rows,
    expenses_csv w' = Table COLUMNS rows
    /\ List.length rows = 500%nat
    /\ StronglySorted date_le rows
    /\ Forall (mock_line today) rows
    /\ List.length (ledger w') = 500%nat.
Proof.
  intros Hsort Hdraw w'.
  set (new_data := map (fun i => mock_row today (draw i)) (seq 0 500)).
  assert (Forall (mock_line today) new_data) as Hall.
  { apply Forall_forall. intros r Hr. apply in_map_iff in Hr.
    destruct Hr as [i [<- Hi]]. apply in_seq in Hi.
    apply mock_row_line, Hdraw. lia. }
  assert (filter has_date new_data = new_data) as Hf.
  { apply filter_all. apply (Forall_impl _ (@mock_line_dated today) Hall). }
  destruct (Hsort new_data) as [Hperm Hsorted].
  exists (sort_values new_data).
  assert (expenses_csv w' = Table COLUMNS (sort_values new_data)) as Hcsv.
  { unfold w', generate_mock_data. rewrite save_data_run.
    cbn [snd expenses_csv]. fold new_data. now rewrite Hf. }
  assert (List.length (sort_values new_data) = 500%nat) as Hlen.
  { rewrite <- (Permutation_length Hperm). unfold new_data.
    now rewrite length_map, length_seq. }
  assert (Forall (mock_line today) (sort_values new_data)) as Hall'
      by (apply (Permutation_Forall Hperm); exact Hall).
  split; [exact Hcsv |]. split; [exact Hlen |].
  split; [exact Hsorted |]. split; [exact Hall' |].
  unfold ledger, transactions. rewrite Hcsv.
  change (issubset COLUMNS COLUMNS) with true. cbv iota.
  rewrite <- (length_map to_csv_row), to_csv_row_dropna.
  rewrite filter_all; [exact Hlen |].
  apply (Forall_impl _ (@mock_line_dated today) Hall').
Qed.

End Handlers.

(** *** What every route keeps *)

Lemma kept_row_dated (r : CsvRow) : kept_row r -> has_date r = true.
Proof. intros [[d E] _]. unfold has_date. now rewrite E. Qed.

Lemma well_kept_saved (sort_values : list CsvRow -> list CsvRow)
      (rows : list CsvRow) :
  sorts_by_date sort_values ->
  (forall r, In r rows -> has_date r = true -> kept_row r) ->
  well_kept (Table COLUMNS (sort_values (filter has_date rows))).
Proof.
  intros Hsort Hall. right. eexists. split; [reflexivity |].
  destruct (Hsort (filter has_date rows)) as [Hperm Hsorted].
  split; [| exact Hsorted].
  apply (Permutation_Forall Hperm). apply Forall_forall.
  intros r Hr. apply filter_In in Hr. now apply Hall.
Qed.

(** The frame read from a well-kept file: the four columns, and every line
    of the file. *)
Lemma well_kept_frame (f : CsvFile) :
  well_kept f ->
  frame_columns (frame_of f) = COLUMNS
  /\ Forall kept_row (map (fun ir => to_csv_row (snd ir))
                          (frame_rows (frame_of f))).
Proof.
  intros [-> | [rows [-> [Hall _]]]]; [split; [reflexivity | constructor] |].
  unfold frame_of. change (issubset COLUMNS COLUMNS) with true. cbv iota.
  split; [reflexivity |]. cbn [frame_rows].
  rewrite <- (map_map snd to_csv_row). unfold labelled_dropna.
  rewrite labelled_rows_from, to_csv_row_dropna.
  rewrite filter_all; [exact Hall |].
  apply (Forall_impl _ kept_row_dated Hall).
Qed.

Section Invariant.

Variable sort_values : list CsvRow -> list CsvRow.
Variable float_of_string : string -> option (option Q).
Variable strptime_ymd : string -> bool.
Variable to_datetime_string : string -> Cell Z.
Variable str_strip : string -> string.

(** A file that is absent, or holds the four columns and dated lines in
    ascending order of date with positive amounts and valid categories,
    stays so under every route that writes it: adding an expense (whatever
    the answer, an accepted amount of NaN apart), deleting, clearing, and
    generating mock data, which leaves such a file whatever was there. *)
Theorem routes_keep_the_file_well_kept (w : World) :
  sorts_by_date sort_values ->
  well_kept (expenses_csv w) ->
  (forall body out w',
     add_expense sort_values float_of_string strptime_ymd
                 to_datetime_string str_strip body w = (out, w') ->
     (forall s c d, out <> Return (Created s c None d)) ->
     well_kept (expenses_csv w'))
  /\ (forall index,
        well_kept (expenses_csv (snd (delete_expense sort_values index w))))
  /\ (forall body,
        well_kept (expenses_csv
                     (snd (clear_all_expenses sort_values body w))))
  /\ (forall w0 today draw,
        (forall i, (i < 500)%nat -> valid_draw (draw i)) ->
        well_kept (expenses_csv
                     (snd (generate_mock_data sort_values today draw w0)))).
Proof.
  intros Hsort Hkept.
  destruct (well_kept_frame Hkept) as [Hcols Hrows].
  rewrite Forall_forall in Hrows.
  split; [| split; [| split]].
  - intros body out w' H Hnan.
    apply (@add_expense_inv sort_values float_of_string strptime_ymd
             to_datetime_string str_strip) in H.
    destruct H as [[-> _] | [data [s [c [a [d H]]]]]]; [exact Hkept |].
    destruct H as [_ [_ [_ [Ha [_ [_ [_ [Hc [-> ->]]]]]]]]].
    cbn [expenses_csv]. rewrite Hcols.
    apply well_kept_saved; [exact Hsort |].
    intros r Hr Hdated. apply in_app_or in Hr.
    destruct Hr as [Hr | [<- | []]]; [now apply Hrows |].
    destruct a as [q |]; [| exfalso; now apply (Hnan s c d)].
    unfold has_date in Hdated. cbn [csv_date] in Hdated.
    split; [| split].
    + cbn [csv_date].
      destruct (to_datetime_string s) as [day |]; [now exists day |].
      discriminate.
    + exists q. split; [reflexivity |].
      now apply (proj1 (float_le_0_false (Some q)) Ha).
    + now exists c.
  - intros index. rewrite delete_expense_run. cbv zeta.
    destruct (_ <=? _)%nat;
      [cbn [snd]; now rewrite after_read_csv |].
    destruct (existsb _ _);
      [| cbn [snd]; now rewrite after_read_csv].
    cbn [snd expenses_csv]. rewrite Hcols.
    apply well_kept_saved; [exact Hsort |].
    intros r Hr _. apply Hrows.
    apply in_map_iff in Hr. destruct Hr as [ir [<- Hir]].
    apply filter_In in Hir.
    apply (in_map (fun ir => to_csv_row (snd ir))). apply Hir.
  - intros body. rewrite (clear_all_expenses_run _ _ Hsort).
    assert (well_kept (Table COLUMNS [])) as Hempty.
    { right. exists []. split; [reflexivity |]. split; constructor. }
    destruct body as [e | | b | x | t | items | data]; [exact Hkept | ..];
      (destruct (negb _ && _)%bool; [exact Hkept |]);
      (destruct (confirms _); [exact Hempty | exact Hkept]).
  - intros w0 today draw Hdraw. unfold generate_mock_data.
    rewrite save_data_run. cbn [snd expenses_csv].
    apply well_kept_saved; [exact Hsort |].
    intros r Hr _. apply in_map_iff in Hr. destruct Hr as [i [<- Hi]].
    apply in_seq in Hi.
    apply (@mock_line_kept today), mock_row_line, Hdraw. lia.
Qed.

End Invariant.

Lemma walking_draw_valid (i : nat) : valid_draw (walking_draw i).
Proof.
  unfold valid_draw, walking_draw.
  cbn [days_offset category_index base_amount description_index].
  pose proof (Nat.mod_upper_bound i 181). pose proof (Nat.mod_upper_bound i 6).
  pose proof (Nat.mod_upper_bound i 91). pose proof (Nat.mod_upper_bound i 4).
  assert (0 <= inject_Z (Z.of_nat (i mod 91)) <= 90) as [H3 H4].
  { change 0 with (inject_Z 0). change 90 with (inject_Z 90).
    rewrite <- !Zle_Qle. lia. }
  repeat split; try lia; lra.
Qed.

Lemma eight_weeks_well_kept :
  well_kept (expenses_csv (world_of true eight_weeks)).
Proof.
  right. exists eight_weeks. split; [reflexivity |]. split.
  - repeat (constructor;
            [split; [eexists; reflexivity |
                     split; [eexists; split; reflexivity |
                             eexists; split; [reflexivity | simpl; tauto]]]
            |]).
    constructor.
  - repeat (constructor; [| repeat (constructor; [vm_compute; discriminate |]);
                            constructor]).
    constructor.
Qed.

Lemma generate_mock_data_walking :
  List.length
    (ledger (snd (generate_mock_data insertion_sort mock_today walking_draw
                                     (world_of true eight_weeks))))
  = 500%nat.
Proof.
  destruct (@generate_mock_data_writes_500_lines
              insertion_sort mock_today walking_draw
              (world_of true eight_weeks) insertion_sort_sorts
              (fun i _ => walking_draw_valid i))
    as [rows [_ [_ [_ [_ H]]]]].
  exact H.
Defined.

Lemma delete_keeps_eight_weeks_well_kept :
  well_kept (expenses_csv
               (snd (delete_expense insertion_sort 3
                                    (world_of true eight_weeks)))).
Proof.
  exact (proj1 (proj2
           (@routes_keep_the_file_well_kept
              insertion_sort no_float any_date march_first no_strip
              (world_of true eight_weeks)
              insertion_sort_sorts eight_weeks_well_kept)) 3%nat).
Defined.

End MockFacts.
